(** * Delegated agent execution: a model of [AgentExecutionTool]

    The development follows [backend/agent/tools/agent_execution_tool.py].

    - Python [str] values are sequences of code points; they are modelled
      as lists of 8-bit characters, i.e. code points below 256, with
      [str.isspace] and [str.lower] as Python defines them on that range.
    - Python [int] values are unbounded and are modelled in [Z].
    - The record store is a set of tables threaded through a
      state-and-exception monad.  Store operations succeed; exceptions come
      from the access check and from the collaborators (the workflow
      engine and the background runtime).
    - Points in time are integers (microseconds since 1970-01-01T00:00Z);
      [datetime.now] reads a clock that may answer differently at every
      call; [datetime] arithmetic leaves its range with [OverflowError].
    - A call returns; a task that never ends, and with it a wait that
      never returns, has no counterpart here. *)

From Stdlib Require Import List ZArith Lia Bool Ascii String Arith.
From Stdlib Require Import Numbers.DecimalString.
From Stdlib Require Import Sorting.Sorted Sorting.Permutation.
Import ListNotations.

Set Implicit Arguments.

(** ** Python strings *)

Module PyStr.

Definition str := list ascii.

Definition lit (s : string) : str := list_ascii_of_string s.

Definition code (c : ascii) : N := N_of_ascii c.

Definition newline : ascii := ascii_of_N 10.

(** [str.isspace] on one code point below 256: TAB..CR, FS..US, SPACE,
    NEL and NBSP. *)
Definition is_space (c : ascii) : bool :=
  let n := code c in
  ((9 <=? n) && (n <=? 13) || (28 <=? n) && (n <=? 32)
   || (n =? 133) || (n =? 160))%N.

(** [str.lower] on one code point below 256. *)
Definition lower_char (c : ascii) : ascii :=
  let n := code c in
  if ((65 <=? n) && (n <=? 90))%N then ascii_of_N (n + 32)
  else if ((192 <=? n) && (n <=? 222) && negb (n =? 215))%N
       then ascii_of_N (n + 32)
  else c.

Definition lower (s : str) : str := map lower_char s.

Fixpoint lstrip (s : str) : str :=
  match s with
  | [] => []
  | c :: t => if is_space c then lstrip t else s
  end.

Definition rstrip (s : str) : str := rev (lstrip (rev s)).

Definition strip (s : str) : str := rstrip (lstrip s).

Fixpoint eqb (a b : str) : bool :=
  match a, b with
  | [], [] => true
  | x :: a', y :: b' => Ascii.eqb x y && eqb a' b'
  | _, _ => false
  end.

(** [s.startswith(p)] *)
Fixpoint startswith (s p : str) : bool :=
  match p, s with
  | [], _ => true
  | x :: p', y :: s' => Ascii.eqb x y && startswith s' p'
  | _ :: _, [] => false
  end.

(** [sub in s] *)
Fixpoint contains (sub s : str) : bool :=
  startswith s sub ||
  match s with
  | [] => false
  | _ :: t => contains sub t
  end.

(** [s.split('\n')] *)
Fixpoint split_nl (s : str) : list str :=
  match s with
  | [] => [[]]
  | c :: t =>
      if Ascii.eqb c newline then [] :: split_nl t
      else match split_nl t with
           | h :: r => (c :: h) :: r
           | [] => [[c]]
           end
  end.

(** ['\n'.join(ls)] *)
Fixpoint join_nl (ls : list str) : str :=
  match ls with
  | [] => []
  | [l] => l
  | l :: r => l ++ newline :: join_nl r
  end.

(** [ls.index(x)]; [None] stands for [ValueError]. *)
Fixpoint index (ls : list str) (x : str) : option nat :=
  match ls with
  | [] => None
  | l :: r => if eqb l x then Some 0
              else option_map S (index r x)
  end.

Definition len (s : str) : Z := Z.of_nat (List.length s).

(** [s[i:]] for an arbitrary integer [i]. *)
Definition slice_from (s : str) (i : Z) : str :=
  let start := if (i <? 0)%Z then Z.max 0 (len s + i) else Z.min i (len s) in
  skipn (Z.to_nat start) s.

(** [s[:i]] for an arbitrary integer [i]. *)
Definition slice_to (s : str) (i : Z) : str :=
  let stop := if (i <? 0)%Z then Z.max 0 (len s + i) else Z.min i (len s) in
  firstn (Z.to_nat stop) s.

(** [str(n)] / [f"{n}"] for an integer. *)
Definition of_Z (n : Z) : str := lit (NilZero.string_of_int (Z.to_int n)).

End PyStr.

Import PyStr.

(** [py "text"] is the Python string literal ["text"]. *)
Notation "'py' s" := (lit s%string) (at level 9, s at level 0, only parsing).

(** ** Result extraction and model resolution (pure helpers) *)

Definition substantial (line : str) : bool :=
  negb (PyStr.eqb (strip line) [])
  && negb (startswith line (py "#"))
  && negb (startswith line (py "```")).

Definition _extract_last_message (full_output : str) : str :=
  if PyStr.eqb (strip full_output) [] then py "No output received"
  else
    let lines := split_nl (strip full_output) in
    match find substantial (rev lines) with
    | Some line =>
        match index lines line with
        | Some line_index =>
            let start_index := Z.max 0 (Z.of_nat line_index - 3) in
            strip (join_nl (skipn (Z.to_nat start_index) lines))
        | None => strip line
        end
    | None =>
        if (100 <? len full_output)%Z
        then strip (slice_from full_output ((- len full_output) / 5))
        else full_output
    end.

Definition truncation_prefix (elided : Z) : str :=
  py "...[truncated " ++ of_Z elided ++ py " characters]..." ++ [newline].

Definition _truncate_from_end (text : str) (max_tokens : Z) : str :=
  if (max_tokens <=? 0)%Z then []
  else
    let max_chars := (max_tokens * 4)%Z in
    if (len text <=? max_chars)%Z then text
    else
      let truncated := slice_from text (- max_chars) in
      truncation_prefix (len text - max_chars) ++ truncated.

Definition providers : list str :=
  [py "openrouter"; py "anthropic"; py "openai"; py "google"].

Definition fallback_model : str := py "openrouter/google/gemini-2.5-flash".

(** An [Optional[str]] is truthy when it is a non-empty string. *)
Definition truthy (o : option str) : bool :=
  match o with
  | Some (_ :: _) => true
  | _ => false
  end.

(** [any(provider in m.lower() for provider in [...])] *)
Definition recognized (m : str) : bool :=
  existsb (fun provider => contains provider (lower m)) providers.

Definition _get_fallback_model (requested_model : option str) : str :=
  match requested_model with
  | Some m =>
      if truthy requested_model then
        if recognized m then m else fallback_model
      else fallback_model
  | None => fallback_model
  end.

(** ** The record store

    Tables are lists of rows in insertion order.  Thread and message ids
    come from [uuid4], run ids are the store's auto-generated primary keys;
    both are drawn from one supply of fresh numbers. *)

Definition Time := Z.

Record Agent := {
  agent_id_of : str;
  agent_account_id : str;
  current_version_id : option str
}.

Record AgentVersion := {
  version_id : str;
  version_config : str
}.

Record Workflow := {
  wf_id : str;
  wf_agent_id : str;
  wf_name : str;
  wf_description : option str;
  wf_status : str
}.

Record ThreadMetadata := {
  tm_agent_execution_tool : bool;
  tm_workflow_execution : bool;
  tm_workflow_name : option str;
  tm_timeout : Z
}.

Record Thread := {
  thread_id : nat;
  thread_account_id : str;
  thread_project_id : str;
  is_public : bool;
  thread_metadata : ThreadMetadata
}.

(** The [content] column holds JSON text; a row keeps what [json.loads]
    makes of it. *)
Inductive Content :=
| JsonMessage (role content : str)   (* an object with a 'content' key *)
| JsonOther (repr : str)             (* any other JSON value, with its str() *)
| NotJson (raw : str).               (* text that json.loads rejects *)

Record Message := {
  message_id : nat;
  msg_thread_id : nat;
  msg_content : Content;
  msg_type : str;
  is_llm_message : bool;
  msg_agent_id : option str
}.

Record RunMetadata := {
  rm_model_name : str;
  rm_enable_thinking : bool;
  rm_reasoning_effort : str;
  rm_enable_context_manager : bool;
  rm_agent_execution_tool : bool;
  rm_workflow_execution : bool;
  rm_timeout : Z
}.

Record AgentRun := {
  run_id : nat;
  run_thread_id : nat;
  run_agent_id : str;
  run_account_id : option str;
  run_status : str;
  started_at : Time;
  completed_at : option Time;
  error_message : option str;
  run_metadata : RunMetadata
}.

Inductive Event :=
| TaskCreated (agent_run_id : nat)
| TaskCancelled (agent_run_id : nat).

Record World := {
  agents : list Agent;
  agent_versions : list AgentVersion;
  agent_workflows : list Workflow;
  threads : list Thread;
  messages : list Message;
  agent_runs : list AgentRun;
  next_id : nat;
  ticks : nat;
  events : list Event
}.

(** ** Exceptions and the state-and-exception monad

    [Exn] holds the exceptions of class [Exception] that the tool's
    handlers tell apart; [OtherError] stands for every other subclass of
    [Exception] ([OverflowError], [KeyError], a store error, ...).  What is
    not an [Exception] ([asyncio.CancelledError], [KeyboardInterrupt]),
    and which no handler of the tool catches, is not represented: the
    statements below speak of collaborators that return or raise an
    [Exception]. *)

Inductive Exn :=
| ValueError (msg : str)
| ImportError (msg : str)
| TimeoutError
| OtherError (msg : str).

Definition exn_str (e : Exn) : str :=
  match e with
  | ValueError m | ImportError m | OtherError m => m
  | TimeoutError => []
  end.

Inductive Outcome (A : Type) :=
| Ok (a : A)
| Raise (e : Exn).
Arguments Ok {A} a.
Arguments Raise {A} e.

Definition M (A : Type) := World -> Outcome A * World.

Definition ret {A} (a : A) : M A := fun w => (Ok a, w).

Definition raise {A} (e : Exn) : M A := fun w => (Raise e, w).

Definition bind {A B} (m : M A) (k : A -> M B) : M B :=
  fun w => match m w with
           | (Ok a, w') => k a w'
           | (Raise e, w') => (Raise e, w')
           end.

(** [try: m  except <matching e>: h e]; a handler answering [None]
    does not match and lets the exception through. *)
Definition try_except {A} (m : M A) (h : Exn -> option (M A)) : M A :=
  fun w => match m w with
           | (Ok a, w') => (Ok a, w')
           | (Raise e, w') =>
               match h e with
               | Some k => k w'
               | None => (Raise e, w')
               end
           end.

Notation "x <- m ;; k" := (bind m (fun x => k))
  (at level 61, m at next level, right associativity).
Notation "m ;; k" := (bind m (fun _ => k))
  (at level 61, right associativity).

Definition get {A} (f : World -> A) : M A := fun w => (Ok (f w), w).

Definition modify (f : World -> World) : M unit := fun w => (Ok tt, f w).

Definition set_threads (l : list Thread) (w : World) : World :=
  {| agents := agents w; agent_versions := agent_versions w;
     agent_workflows := agent_workflows w; threads := l;
     messages := messages w; agent_runs := agent_runs w;
     next_id := next_id w; ticks := ticks w; events := events w |}.

Definition set_messages (l : list Message) (w : World) : World :=
  {| agents := agents w; agent_versions := agent_versions w;
     agent_workflows := agent_workflows w; threads := threads w;
     messages := l; agent_runs := agent_runs w;
     next_id := next_id w; ticks := ticks w; events := events w |}.

Definition set_agent_runs (l : list AgentRun) (w : World) : World :=
  {| agents := agents w; agent_versions := agent_versions w;
     agent_workflows := agent_workflows w; threads := threads w;
     messages := messages w; agent_runs := l;
     next_id := next_id w; ticks := ticks w; events := events w |}.

Definition set_next_id (n : nat) (w : World) : World :=
  {| agents := agents w; agent_versions := agent_versions w;
     agent_workflows := agent_workflows w; threads := threads w;
     messages := messages w; agent_runs := agent_runs w;
     next_id := n; ticks := ticks w; events := events w |}.

Definition set_ticks (n : nat) (w : World) : World :=
  {| agents := agents w; agent_versions := agent_versions w;
     agent_workflows := agent_workflows w; threads := threads w;
     messages := messages w; agent_runs := agent_runs w;
     next_id := next_id w; ticks := n; events := events w |}.

Definition set_events (l : list Event) (w : World) : World :=
  {| agents := agents w; agent_versions := agent_versions w;
     agent_workflows := agent_workflows w; threads := threads w;
     messages := messages w; agent_runs := agent_runs w;
     next_id := next_id w; ticks := ticks w; events := l |}.

(** A fresh identifier: [uuid.uuid4()] or an auto-generated primary key. *)
Definition fresh : M nat :=
  fun w => (Ok (next_id w), set_next_id (S (next_id w)) w).

Definition emit (e : Event) : M unit :=
  modify (fun w => set_events (events w ++ [e]) w).

(** What a tool hands back: [fail_response] / [success_response]. *)
Record ResponseData := {
  resp_agent_id : str;
  resp_execution_mode : str;
  resp_workflow_id : option str;
  resp_model_used : str;
  resp_output_mode : str;
  resp_max_tokens : Z;
  resp_status : str;
  resp_result : str;
  resp_raw_result : option str;
  resp_timestamp : Time
}.

Inductive Payload :=
| Text (s : str)
| Data (d : ResponseData).

Record ToolResult := {
  success : bool;
  output : Payload
}.

Definition fail_response (p : Payload) : ToolResult :=
  {| success := false; output := p |}.

Definition success_response (p : Payload) : ToolResult :=
  {| success := true; output := p |}.

(** The dictionary [execute_workflow] answers with. *)
Record ExecutionResult := {
  er_success : bool;
  er_output : option str;
  er_error : option str
}.

(** Keyword arguments of [run_agent_background]. *)
Record BackgroundArgs := {
  ba_agent_run_id : nat;
  ba_thread_id : nat;
  ba_instance_id : str;
  ba_project_id : str;
  ba_model_name : str;
  ba_enable_thinking : bool;
  ba_reasoning_effort : str;
  ba_stream : bool;
  ba_enable_context_manager : bool;
  ba_agent_config : Agent * option AgentVersion
}.

(** How the runtime task ends under [asyncio.wait_for(task, timeout)],
    and the store as it is when the wait is over.  A task that has not
    finished at the deadline is cancelled by [wait_for], which then waits
    for it to end: the task either ends cancelled ([cancel_honoured]), or
    swallows the cancellation and returns.  (A task that answers the
    cancellation with an exception of its own is a [TaskRaised].) *)
Inductive TaskOutcome :=
| TaskReturned (w : World)
| TaskRaised (e : Exn) (w : World)
| TaskTimedOut (w : World) (cancel_honoured : bool).

Definition member (x : str) (l : list str) : bool := existsb (PyStr.eqb x) l.

Definition or_default (o : option str) (d : str) : str :=
  match o with
  | Some s => s
  | None => d
  end.

Definition status_failed : str := py "failed".
Definition status_completed : str := py "completed".
Definition status_running : str := py "running".

(** ** The tool instance and its collaborators

    [self] carries the instance attributes and the ambient collaborators: the
    clock behind [datetime.now] (its n-th reading), and the two modules
    that are imported on demand, absent ([None]) when the import fails. *)
Record Env := {
  project_id : str;
  account_id : str;
  clock : nat -> Time;
  execute_workflow :
    option (str -> str -> str -> str -> M ExecutionResult);
  run_agent_background :
    option (BackgroundArgs -> Z -> World -> TaskOutcome)
}.

Definition now (self : Env) : M Time :=
  fun w => (Ok (clock self (ticks w)), set_ticks (S (ticks w)) w).

(** [await asyncio.wait_for(background_task, timeout=timeout)].  At the
    deadline [wait_for] cancels the task and waits for it: it raises
    [TimeoutError] when the task ended cancelled, and returns normally when
    the task swallowed the cancellation and returned. *)
Definition wait_for (task : World -> TaskOutcome) : M unit :=
  fun w => match task w with
           | TaskReturned w' => (Ok tt, w')
           | TaskRaised e w' => (Raise e, w')
           | TaskTimedOut w' true => (Raise TimeoutError, w')
           | TaskTimedOut w' false => (Ok tt, w')
           end.

Definition except_Exception {A} (h : Exn -> M A) : Exn -> option (M A) :=
  fun e => Some (h e).

(** *** Finalisation *)

Definition mark_failed (error : str) (t : Time) (r : AgentRun) : AgentRun :=
  {| run_id := run_id r; run_thread_id := run_thread_id r;
     run_agent_id := run_agent_id r; run_account_id := run_account_id r;
     run_status := status_failed; started_at := started_at r;
     completed_at := Some t; error_message := Some error;
     run_metadata := run_metadata r |}.

(** [table('agent_runs').update({...}).eq('id', agent_run_id)] *)
Definition update_run_failed (agent_run_id : nat) (error : str) (t : Time)
  : M unit :=
  modify (fun w =>
    set_agent_runs
      (map (fun r => if Nat.eqb (run_id r) agent_run_id
                     then mark_failed error t r else r)
           (agent_runs w)) w).

Definition _mark_agent_run_as_failed (self : Env) (agent_run_id : nat)
  (error_message : str) : M unit :=
  try_except
    (t <- now self ;;
     update_run_failed agent_run_id error_message t)
    (except_Exception (fun _ => ret tt)).

Definition cleanup_stuck_agent_run (self : Env) (agent_run_id : nat)
  : M bool :=
  try_except
    (agent_run_result <-
       get (fun w => filter (fun r => Nat.eqb (run_id r) agent_run_id)
                            (agent_runs w)) ;;
     match agent_run_result with
     | [] => ret false
     | agent_run :: _ =>
         if member (run_status agent_run) [status_completed; status_failed]
         then ret true
         else
           _mark_agent_run_as_failed self agent_run_id
             (py "Agent run was stuck and cleaned up") ;;
           ret true
     end)
    (except_Exception (fun _ => ret false)).

Definition stuck (account : str) (cutoff : Time) (r : AgentRun) : bool :=
  match run_account_id r with
  | Some a => PyStr.eqb a account
  | None => false
  end
  && PyStr.eqb (run_status r) status_running
  && (started_at r <? cutoff)%Z.

Definition sweep_message (timeout_minutes : Z) : str :=
  py "Agent run timed out after " ++ of_Z timeout_minutes ++ py " minutes".

(** The [for run in stuck_runs_result.data] loop. *)
Fixpoint sweep_loop (cls : Env) (timeout_minutes : Z)
  (runs : list AgentRun) (cleanup_count : Z) : M Z :=
  match runs with
  | [] => ret cleanup_count
  | run :: rest =>
      cleanup_count' <-
        try_except
          (t <- now cls ;;
           update_run_failed (run_id run) (sweep_message timeout_minutes) t ;;
           ret (cleanup_count + 1)%Z)
          (except_Exception (fun _ => ret cleanup_count)) ;;
      sweep_loop cls timeout_minutes rest cleanup_count'
  end.

(** [timedelta(minutes=m)] in the clock's unit, microseconds. *)
Definition minutes (m : Z) : Z := (m * 60000000)%Z.

(** [datetime.min] (0001-01-01T00:00:00) and [datetime.max]
    (9999-12-31T23:59:59.999999). *)
Definition datetime_min : Time := (-62135596800000000)%Z.
Definition datetime_max : Time := 253402300799999999%Z.

Definition datetime_ok (t : Time) : bool :=
  ((datetime_min <=? t) && (t <=? datetime_max))%Z.

(** A [timedelta] holds at most 999999999 days, either way. *)
Definition timedelta_ok (microseconds : Z) : bool :=
  ((-999999999 <=? microseconds / 86400000000)
   && (microseconds / 86400000000 <=? 999999999))%Z.

Definition cutoff_ok (t : Time) (timeout_minutes : Z) : bool :=
  timedelta_ok (minutes timeout_minutes)
  && datetime_ok (t - minutes timeout_minutes)%Z.

(** [t - timedelta(minutes=m)]: [OverflowError] when the difference, or
    the [timedelta] itself, cannot be represented. *)
Definition minus_minutes (t : Time) (timeout_minutes : Z) : M Time :=
  if cutoff_ok t timeout_minutes
  then ret (t - minutes timeout_minutes)%Z
  else raise (OtherError (py "date value out of range")).

Definition cleanup_stuck_agent_runs_by_timeout (cls : Env) (account : str)
  (timeout_minutes : Z) : M Z :=
  try_except
    (t <- now cls ;;
     cutoff_time <- minus_minutes t timeout_minutes ;;
     stuck_runs_result <-
       get (fun w => filter (stuck account cutoff_time) (agent_runs w)) ;;
     match stuck_runs_result with
     | [] => ret 0%Z
     | _ => sweep_loop cls timeout_minutes stuck_runs_result 0%Z
     end)
    (except_Exception (fun _ => ret 0%Z)).

(** *** Reading a finished run *)

Definition message_text (c : Content) : str :=
  match c with
  | JsonMessage _ content => content
  | JsonOther repr => repr
  | NotJson raw => raw
  end.

Definition brevity_marker : str :=
  [newline; newline] ++ py "[... response truncated for brevity ...]".

Definition _get_agent_execution_result (self : Env) (agent_run_id : nat)
  (thread : nat) (timeout : Z) : M str :=
  try_except
    (agent_run_result <-
       get (fun w => filter (fun r => Nat.eqb (run_id r) agent_run_id)
                            (agent_runs w)) ;;
     match agent_run_result with
     | [] => ret (py "Error: Could not find agent run record")
     | agent_run :: _ =>
         if PyStr.eqb (run_status agent_run) status_failed then
           let error_msg := or_default (error_message agent_run) (py "None") in
           ret (py "Agent execution failed: " ++ error_msg)
         else if negb (PyStr.eqb (run_status agent_run) status_completed) then
           ret (py "Agent execution incomplete (status: "
                ++ run_status agent_run ++ py ")")
         else
           messages_result <-
             get (fun w =>
                    filter (fun m => Nat.eqb (msg_thread_id m) thread
                                     && PyStr.eqb (msg_type m) (py "assistant"))
                           (messages w)) ;;
           match rev messages_result with
           | [] => ret (py "Agent completed but no response messages found")
           | last_message :: _ =>
               let result := message_text (msg_content last_message) in
               let result :=
                 if (2000 <? len result)%Z
                 then slice_to result 1900 ++ brevity_marker
                 else result in
               ret (py "Agent execution completed successfully:"
                    ++ [newline; newline] ++ result)
           end
     end)
    (except_Exception
       (fun e => ret (py "Error retrieving agent result: " ++ exn_str e))).

(** *** Building the request and supervising the run *)

Definition timeout_result (timeout : Z) : str :=
  py "Error: Agent execution timed out after " ++ of_Z timeout
  ++ py " seconds. The agent may be stuck or taking too long to respond.".

(** Lines 388-404: wait for the task, fetch its result, or finalise on
    timeout. *)
Definition await_completion (self : Env) (task : World -> TaskOutcome)
  (agent_run_id thread : nat) (timeout : Z) : M str :=
  try_except
    (wait_for task ;;
     _get_agent_execution_result self agent_run_id thread 10)
    (fun e =>
       match e with
       | TimeoutError =>
           Some (emit (TaskCancelled agent_run_id) ;;
                 _mark_agent_run_as_failed self agent_run_id
                   (py "Execution timed out") ;;
                 ret (timeout_result timeout))
       | _ => None
       end).

Definition final_message_of (message : str) (workflow : option Workflow)
  : str :=
  match workflow with
  | Some wf =>
      let workflow_context :=
        py "Executing workflow '" ++ wf_name wf ++ py "'" in
      let workflow_context :=
        if truthy (wf_description wf)
        then workflow_context ++ py ": " ++ or_default (wf_description wf) []
        else workflow_context in
      workflow_context ++ [newline; newline] ++ py "User message: " ++ message
  | None => message
  end.

Definition is_some {A} (o : option A) : bool :=
  match o with
  | Some _ => true
  | None => false
  end.

Definition _execute_agent_with_thread (self : Env) (agent_id message
  model_name : str) (timeout : Z) (workflow : option Workflow) : M str :=
  try_except
    (thread <- fresh ;;
     let thread_data :=
       {| thread_id := thread;
          thread_account_id := account_id self;
          thread_project_id := project_id self;
          is_public := false;
          thread_metadata :=
            {| tm_agent_execution_tool := true;
               tm_workflow_execution := is_some workflow;
               tm_workflow_name := option_map wf_name workflow;
               tm_timeout := timeout |} |} in
     modify (fun w => set_threads (threads w ++ [thread_data]) w) ;;
     let final_message := final_message_of message workflow in
     mid <- fresh ;;
     let message_data :=
       {| message_id := mid;
          msg_thread_id := thread;
          msg_content := JsonMessage (py "user") final_message;
          msg_type := py "user";
          is_llm_message := false;
          msg_agent_id := Some agent_id |} in
     modify (fun w => set_messages (messages w ++ [message_data]) w) ;;
     started <- now self ;;
     agent_run_id <- fresh ;;
     let agent_run_data :=
       {| run_id := agent_run_id;
          run_thread_id := thread;
          run_agent_id := agent_id;
          run_account_id := None;
          run_status := status_running;
          started_at := started;
          completed_at := None;
          error_message := None;
          run_metadata :=
            {| rm_model_name := model_name;
               rm_enable_thinking := false;
               rm_reasoning_effort := py "low";
               rm_enable_context_manager := true;
               rm_agent_execution_tool := true;
               rm_workflow_execution := is_some workflow;
               rm_timeout := timeout |} |} in
     modify (fun w => set_agent_runs (agent_runs w ++ [agent_run_data]) w) ;;
     try_except
       (match run_agent_background self with
        | None => raise (ImportError (py "No module named 'run_agent_background'"))
        | Some runtime =>
            agent_result <-
              get (fun w => filter (fun a => PyStr.eqb (agent_id_of a) agent_id)
                                   (agents w)) ;;
            match agent_result with
            | [] => ret (py "Error: Agent " ++ agent_id ++ py " not found")
            | agent_config :: _ =>
                current_version <-
                  (if truthy (current_version_id agent_config) then
                     get (fun w =>
                       hd_error
                         (filter (fun v =>
                            PyStr.eqb (version_id v)
                              (or_default (current_version_id agent_config) []))
                                 (agent_versions w)))
                   else ret None) ;;
                let args :=
                  {| ba_agent_run_id := agent_run_id;
                     ba_thread_id := thread;
                     ba_instance_id := py "agent_execution_tool";
                     ba_project_id := project_id self;
                     ba_model_name := model_name;
                     ba_enable_thinking := false;
                     ba_reasoning_effort := py "low";
                     ba_stream := false;
                     ba_enable_context_manager := true;
                     ba_agent_config := (agent_config, current_version) |} in
                emit (TaskCreated agent_run_id) ;;
                await_completion self (runtime args timeout)
                  agent_run_id thread timeout
            end
        end)
       (fun e =>
          match e with
          | ImportError _ =>
              Some (ret (py "Error: Agent execution service unavailable"))
          | _ => None
          end))
    (except_Exception
       (fun e => ret (py "Error executing agent: " ++ exn_str e))).

Definition _execute_agent_prompt (self : Env) (agent_id message
  model_name : str) (timeout : Z) : M str :=
  try_except
    (_execute_agent_with_thread self agent_id message model_name timeout None)
    (except_Exception
       (fun e => ret (py "Error executing agent: " ++ exn_str e))).

Definition _execute_agent_workflow (self : Env) (agent_id workflow_id
  message model_name : str) (timeout : Z) : M str :=
  try_except
    (workflow_result <-
       get (fun w => filter (fun wf => PyStr.eqb (wf_id wf) workflow_id
                                       && PyStr.eqb (wf_agent_id wf) agent_id)
                            (agent_workflows w)) ;;
     match workflow_result with
     | [] => ret (py "Error: Workflow " ++ workflow_id
                  ++ py " not found for agent " ++ agent_id)
     | workflow :: _ =>
         if negb (PyStr.eqb (wf_status workflow) (py "active")) then
           ret (py "Error: Workflow " ++ wf_name workflow
                ++ py " is not active (status: " ++ wf_status workflow
                ++ py ")")
         else
           try_except
             (match execute_workflow self with
              | None =>
                  raise (ImportError (py "No module named 'triggers'"))
              | Some execute =>
                  execution_result <-
                    execute workflow_id agent_id message (account_id self) ;;
                  if er_success execution_result then
                    ret (or_default (er_output execution_result)
                           (py "Workflow '" ++ wf_name workflow
                            ++ py "' executed successfully"))
                  else
                    ret (py "Workflow execution failed: "
                         ++ or_default (er_error execution_result)
                              (py "Unknown error"))
              end)
             (fun e =>
                match e with
                | ImportError _ =>
                    Some (_execute_agent_with_thread self agent_id message
                            model_name timeout (Some workflow))
                | _ => None
                end)
     end)
    (except_Exception
       (fun e => ret (py "Error executing workflow: " ++ exn_str e))).

(** *** The entry point *)

Definition _verify_agent_access (self : Env) (agent_id : str) : M unit :=
  try_except
    (result <-
       get (fun w => filter (fun a => PyStr.eqb (agent_id_of a) agent_id
                                      && PyStr.eqb (agent_account_id a)
                                           (account_id self))
                            (agents w)) ;;
     match result with
     | [] => raise (ValueError (py "Agent not found or access denied"))
     | _ => ret tt
     end)
    (fun e =>
       match e with
       | ValueError _ => Some (raise e)
       | _ => Some (raise (ValueError (py "Database connection error")))
       end).

Definition mode_prompt : str := py "prompt".
Definition mode_workflow : str := py "workflow".
Definition out_last_message : str := py "last_message".
Definition out_full : str := py "full".

(** Lines 192-233: turn the raw execution result into the response. *)
Definition process_result (self : Env) (agent_id execution_mode : str)
  (workflow_id : option str) (model_name output_mode : str) (max_tokens : Z)
  (raw_result : str) : M ToolResult :=
  if contains (py "Error:") raw_result then
    timestamp <- now self ;;
    let response_data :=
      {| resp_agent_id := agent_id;
         resp_execution_mode := execution_mode;
         resp_workflow_id :=
           if PyStr.eqb execution_mode mode_workflow then workflow_id
           else None;
         resp_model_used := model_name;
         resp_output_mode := output_mode;
         resp_max_tokens := max_tokens;
         resp_status := status_failed;
         resp_result := raw_result;
         resp_raw_result := None;
         resp_timestamp := timestamp |} in
    ret (fail_response (Data response_data))
  else
    let processed_result :=
      if PyStr.eqb output_mode out_last_message
      then _extract_last_message raw_result
      else if PyStr.eqb output_mode out_full
      then _truncate_from_end raw_result max_tokens
      else raw_result in
    timestamp <- now self ;;
    let response_data :=
      {| resp_agent_id := agent_id;
         resp_execution_mode := execution_mode;
         resp_workflow_id :=
           if PyStr.eqb execution_mode mode_workflow then workflow_id
           else None;
         resp_model_used := model_name;
         resp_output_mode := output_mode;
         resp_max_tokens := max_tokens;
         resp_status := status_completed;
         resp_result := processed_result;
         resp_raw_result :=
           if PyStr.eqb output_mode out_last_message then Some raw_result
           else None;
         resp_timestamp := timestamp |} in
    ret (success_response (Data response_data)).

Definition call_agent (self : Env) (agent_id message execution_mode : str)
  (workflow_id model_name : option str) (timeout max_tokens : Z)
  (output_mode : str) : M ToolResult :=
  try_except
    (if negb (member execution_mode [mode_prompt; mode_workflow]) then
       ret (fail_response (Text (py
         "Error: execution_mode must be either 'prompt' or 'workflow'")))
     else if PyStr.eqb execution_mode mode_workflow
             && negb (truthy workflow_id) then
       ret (fail_response (Text (py
         "Error: workflow_id is required when execution_mode is 'workflow'")))
     else
       _verify_agent_access self agent_id ;;
       let model_name := _get_fallback_model model_name in
       let timeout := Z.max 60 (Z.min 1800 timeout) in
       let max_tokens := Z.max 100 (Z.min 4000 max_tokens) in
       let output_mode :=
         if negb (member output_mode [out_last_message; out_full])
         then out_last_message else output_mode in
       raw_result <-
         (if PyStr.eqb execution_mode mode_workflow then
            _execute_agent_workflow self agent_id (or_default workflow_id [])
              message model_name timeout
          else
            _execute_agent_prompt self agent_id message model_name timeout) ;;
       process_result self agent_id execution_mode workflow_id model_name
         output_mode max_tokens raw_result)
    (except_Exception
       (fun e =>
          ret (fail_response (Text (py "Error calling agent: " ++ exn_str e))))).

(** ** Vocabulary of the statements *)

(** A line the scan skips: blank, or starting a heading or a fence. *)
Definition structural (l : str) : bool := negb (substantial l).

(** The caller's account owns the agent. *)
Definition accessible (self : Env) (agent_id : str) (w : World) : Prop :=
  exists a, In a (agents w) /\ agent_id_of a = agent_id
            /\ agent_account_id a = account_id self.

(** The request passes the checks on mode and workflow id. *)
Definition well_formed (execution_mode : str) (workflow_id : option str)
  : Prop :=
  member execution_mode [mode_prompt; mode_workflow] = true
  /\ (execution_mode = mode_workflow -> truthy workflow_id = true).

(** The execution [call_agent] dispatches to, given the effective model
    and timeout. *)
Definition dispatched (self : Env) (agent_id message execution_mode : str)
  (workflow_id : option str) (model_name : str) (timeout : Z) : M str :=
  if PyStr.eqb execution_mode mode_workflow then
    _execute_agent_workflow self agent_id (or_default workflow_id [])
      message model_name timeout
  else
    _execute_agent_prompt self agent_id message model_name timeout.

Definition effective_output_mode (output_mode : str) : str :=
  if negb (member output_mode [out_last_message; out_full])
  then out_last_message else output_mode.

(** ** The specification's reading of the extractor

    [spec_extract_last_message] follows the words of the specification, to
    be compared with [_extract_last_message]: the selected line together
    with up to three lines before it, else the trailing fifth of a
    transcript of more than 100 characters, else the transcript. *)

Fixpoint last_index (p : str -> bool) (ls : list str) : option nat :=
  match ls with
  | [] => None
  | l :: r =>
      match last_index p r with
      | Some i => Some (S i)
      | None => if p l then Some 0 else None
      end
  end.

Definition spec_extract_last_message (transcript : str) : str :=
  let lines := split_nl (strip transcript) in
  match last_index substantial lines with
  | Some i =>
      let start := i - 3 in
      join_nl (firstn (S i - start) (skipn start lines))
  | None =>
      if (100 <? len transcript)%Z
      then slice_from transcript ((- len transcript) / 5)
      else transcript
  end.

(** ** Concrete scenarios *)

Module Scenario.

Definition tick_clock (n : nat) : Time := (1000 + Z.of_nat n)%Z.

(** A deployment without the optional modules. *)
Definition bare : Env :=
  {| project_id := py "P1"; account_id := py "acct";
     clock := tick_clock;
     execute_workflow := None; run_agent_background := None |}.

Definition agent_A1 : Agent :=
  {| agent_id_of := py "A1"; agent_account_id := py "acct";
     current_version_id := None |}.

Definition wf_inactive : Workflow :=
  {| wf_id := py "W1"; wf_agent_id := py "A1"; wf_name := py "monthly";
     wf_description := Some (py "Monthly report"); wf_status := py "inactive" |}.

Definition w0 : World :=
  {| agents := [agent_A1]; agent_versions := [];
     agent_workflows := [wf_inactive];
     threads := []; messages := []; agent_runs := [];
     next_id := 0; ticks := 0; events := [] |}.

(** A runtime that never finishes in time and ends when it is cancelled. *)
Definition hung_runtime (_ : BackgroundArgs) (_ : Z) (w : World)
  : TaskOutcome := TaskTimedOut w true.

Definition with_runtime (rt : BackgroundArgs -> Z -> World -> TaskOutcome)
  : Env :=
  {| project_id := py "P1"; account_id := py "acct";
     clock := tick_clock;
     execute_workflow := None; run_agent_background := Some rt |}.

(** A runtime that never finishes in time, while an operator runs the
    single-run cleanup on the same run before the deadline. *)
Definition hung_runtime_cleaned (args : BackgroundArgs) (_ : Z) (w : World)
  : TaskOutcome :=
  TaskTimedOut (snd (cleanup_stuck_agent_run bare (ba_agent_run_id args) w))
    true.

(** A runtime that answers with one assistant message and completes. *)
Definition answering_runtime (answer : str) (args : BackgroundArgs) (_ : Z)
  (w : World) : TaskOutcome :=
  let reply :=
    {| message_id := next_id w;
       msg_thread_id := ba_thread_id args;
       msg_content := JsonMessage (py "assistant") answer;
       msg_type := py "assistant";
       is_llm_message := true;
       msg_agent_id := None |} in
  let complete (r : AgentRun) :=
    if Nat.eqb (run_id r) (ba_agent_run_id args) then
      {| run_id := run_id r; run_thread_id := run_thread_id r;
         run_agent_id := run_agent_id r; run_account_id := run_account_id r;
         run_status := status_completed; started_at := started_at r;
         completed_at := Some (tick_clock (ticks w));
         error_message := None; run_metadata := run_metadata r |}
    else r in
  TaskReturned
    (set_next_id (S (next_id w))
       (set_agent_runs (map complete (agent_runs w))
          (set_messages (messages w ++ [reply]) w))).

Definition meta0 : RunMetadata :=
  {| rm_model_name := fallback_model; rm_enable_thinking := false;
     rm_reasoning_effort := py "low"; rm_enable_context_manager := true;
     rm_agent_execution_tool := true; rm_workflow_execution := false;
     rm_timeout := 300 |}.

Definition mk_run (id : nat) (account : option str) (st : str)
  (started : Time) : AgentRun :=
  {| run_id := id; run_thread_id := 0; run_agent_id := py "A1";
     run_account_id := account; run_status := st; started_at := started;
     completed_at := None; error_message := None; run_metadata := meta0 |}.

(** Two running runs of one account, started 31 and 10 minutes before the
    clock's first reading, and a run of another account. *)
Definition w_sweep : World :=
  {| agents := [agent_A1]; agent_versions := []; agent_workflows := [];
     threads := []; messages := [];
     agent_runs :=
       [ mk_run 1 (Some (py "acct")) status_running (1000 - minutes 31)%Z;
         mk_run 2 (Some (py "acct")) status_running (1000 - minutes 10)%Z;
         mk_run 3 (Some (py "other")) status_running (1000 - minutes 45)%Z ];
     next_id := 4; ticks := 0; events := [] |}.

(** The records a delegation leaves behind when no runtime is installed:
    a thread, its seed message and a run still marked running. *)
Definition w_running : World :=
  snd (_execute_agent_with_thread bare (py "A1") (py "ping") fallback_model
         300 None w0).

Definition run_summary (id : nat) (w : World)
  : option (str * option str * option Time) :=
  option_map (fun r => (run_status r, error_message r, completed_at r))
    (find (fun r => Nat.eqb (run_id r) id) (agent_runs w)).

End Scenario.

(** ** Vocabulary for the request builder and the supervisor *)

(** A run that has reached [completed] or [failed]. *)
Definition terminal (r : AgentRun) : bool :=
  member (run_status r) [status_completed; status_failed].

(** The three records [_execute_agent_with_thread] writes before it starts
    the runtime, given the identifiers and the clock reading it drew. *)
Definition seed_thread (self : Env) (timeout : Z) (workflow : option Workflow)
  (thread : nat) : Thread :=
  {| thread_id := thread;
     thread_account_id := account_id self;
     thread_project_id := project_id self;
     is_public := false;
     thread_metadata :=
       {| tm_agent_execution_tool := true;
          tm_workflow_execution := is_some workflow;
          tm_workflow_name := option_map wf_name workflow;
          tm_timeout := timeout |} |}.

Definition seed_message (agent_id message : str) (workflow : option Workflow)
  (mid thread : nat) : Message :=
  {| message_id := mid;
     msg_thread_id := thread;
     msg_content := JsonMessage (py "user") (final_message_of message workflow);
     msg_type := py "user";
     is_llm_message := false;
     msg_agent_id := Some agent_id |}.

Definition new_run (agent_id model_name : str) (timeout : Z)
  (workflow : option Workflow) (agent_run_id thread : nat) (started : Time)
  : AgentRun :=
  {| run_id := agent_run_id;
     run_thread_id := thread;
     run_agent_id := agent_id;
     run_account_id := None;
     run_status := status_running;
     started_at := started;
     completed_at := None;
     error_message := None;
     run_metadata :=
       {| rm_model_name := model_name;
          rm_enable_thinking := false;
          rm_reasoning_effort := py "low";
          rm_enable_context_manager := true;
          rm_agent_execution_tool := true;
          rm_workflow_execution := is_some workflow;
          rm_timeout := timeout |} |}.

(** The store once the request is built: thread [next_id w], message
    [next_id w + 1] and run [next_id w + 2] appended. *)
Definition built (self : Env) (agent_id message model_name : str)
  (timeout : Z) (workflow : option Workflow) (w : World) : World :=
  {| agents := agents w; agent_versions := agent_versions w;
     agent_workflows := agent_workflows w;
     threads := threads w ++ [seed_thread self timeout workflow (next_id w)];
     messages :=
       messages w
       ++ [seed_message agent_id message workflow (S (next_id w)) (next_id w)];
     agent_runs :=
       agent_runs w
       ++ [new_run agent_id model_name timeout workflow (S (S (next_id w)))
             (next_id w) (clock self (ticks w))];
     next_id := S (S (S (next_id w)));
     ticks := S (ticks w);
     events := events w |}.

(** The store when the runtime task has been created for the new run. *)
Definition started (self : Env) (agent_id message model_name : str)
  (timeout : Z) (workflow : option Workflow) (w : World) : World :=
  let b := built self agent_id message model_name timeout workflow w in
  set_events (events b ++ [TaskCreated (S (S (next_id w)))]) b.

(** The arguments the runtime is started with for agent row [agent_config]. *)
Definition request_args (self : Env) (model_name : str) (agent_config : Agent)
  (w : World) : BackgroundArgs :=
  {| ba_agent_run_id := S (S (next_id w));
     ba_thread_id := next_id w;
     ba_instance_id := py "agent_execution_tool";
     ba_project_id := project_id self;
     ba_model_name := model_name;
     ba_enable_thinking := false;
     ba_reasoning_effort := py "low";
     ba_stream := false;
     ba_enable_context_manager := true;
     ba_agent_config :=
       (agent_config,
        if truthy (current_version_id agent_config) then
          hd_error
            (filter (fun v => PyStr.eqb (version_id v)
                                (or_default (current_version_id agent_config) []))
                    (agent_versions w))
        else None) |}.

(** The store after the supervisor's reaction to a missed deadline:
    cancellation requested, the run written as failed. *)
Definition finalised (self : Env) (agent_run_id : nat) (w : World) : World :=
  set_agent_runs
    (map (fun r => if Nat.eqb (run_id r) agent_run_id
                   then mark_failed (py "Execution timed out")
                          (clock self (ticks w)) r
                   else r) (agent_runs w))
    (set_ticks (S (ticks w))
       (set_events (events w ++ [TaskCancelled agent_run_id]) w)).

(** The text read from a completed run whose last assistant message is
    [text]. *)
Definition completed_text (text : str) : str :=
  py "Agent execution completed successfully:" ++ [newline; newline]
  ++ (if (2000 <? len text)%Z then slice_to text 1900 ++ brevity_marker
      else text).

(** Same store contents, whatever the clock, the id supply and the task
    log. *)
Definition same_records (w w' : World) : Prop :=
  agents w' = agents w /\ agent_versions w' = agent_versions w
  /\ agent_workflows w' = agent_workflows w /\ threads w' = threads w
  /\ messages w' = messages w /\ agent_runs w' = agent_runs w.

(** Two runs that differ at most in status, error and completion time. *)
Definition same_identity (r r' : AgentRun) : Prop :=
  run_id r' = run_id r /\ run_thread_id r' = run_thread_id r
  /\ run_agent_id r' = run_agent_id r /\ run_account_id r' = run_account_id r
  /\ started_at r' = started_at r /\ run_metadata r' = run_metadata r.

(** ** More concrete scenarios *)

Module Cases.

Import Scenario.

(** The store after a delegation that the runtime answered in time. *)
Definition w_answered : World :=
  snd (call_agent (with_runtime (answering_runtime (py "...
Done: pong")))
         (py "A1") (py "ping") mode_prompt None None 300 1000
         out_last_message w0).

Definition no_message : Message :=
  {| message_id := 0; msg_thread_id := 0; msg_content := NotJson [];
     msg_type := []; is_llm_message := false; msg_agent_id := None |}.

(** A runtime that records a failure of its own and returns in time. *)
Definition failing_runtime (error : str) (args : BackgroundArgs) (_ : Z)
  (w : World) : TaskOutcome :=
  TaskReturned
    (set_agent_runs
       (map (fun r => if Nat.eqb (run_id r) (ba_agent_run_id args)
                      then mark_failed error (tick_clock (ticks w)) r else r)
            (agent_runs w)) w).

(** A runtime that misses the deadline, swallows the cancellation and
    returns without having written anything. *)
Definition stubborn_runtime (_ : BackgroundArgs) (_ : Z) (w : World)
  : TaskOutcome := TaskTimedOut w false.



Definition wf_active : Workflow :=
  {| wf_id := py "W2"; wf_agent_id := py "A1"; wf_name := py "digest";
     wf_description := None; wf_status := py "active" |}.

Definition w_active : World :=
  {| agents := [agent_A1]; agent_versions := [];
     agent_workflows := [wf_inactive; wf_active];
     threads := []; messages := []; agent_runs := [];
     next_id := 0; ticks := 0; events := [] |}.

End Cases.

(** ** Store invariant

    Run ids and thread ids are keys drawn from the supply, and every run
    points to a thread of the store. *)
Definition store_ok (w : World) : Prop :=
  NoDup (map run_id (agent_runs w))
  /\ NoDup (map thread_id (threads w))
  /\ (forall r, In r (agent_runs w) -> run_id r < next_id w)
  /\ (forall t, In t (threads w) -> thread_id t < next_id w)
  /\ (forall r, In r (agent_runs w) ->
        exists t, In t (threads w) /\ thread_id t = run_thread_id r).

(** The store a task outcome carries. *)
Definition outcome_world (o : TaskOutcome) : World :=
  match o with
  | TaskReturned w | TaskRaised _ w | TaskTimedOut w _ => w
  end.

(** A runtime that keeps the store invariant, however its task ends. *)
Definition runtime_keeps_store
  (rt : BackgroundArgs -> Z -> World -> TaskOutcome) : Prop :=
  forall args timeout w,
    store_ok w -> store_ok (outcome_world (rt args timeout w)).

(** ** Agent discovery: a model of [AgentDiscoveryTool]

    The development follows [backend/agent/tools/agent_discovery_tool.py].
    The tool reads the name, description and creation time of agent rows,
    which the execution tool never looks at; the rows are modelled with
    those columns.  The ordering of the query is modelled by an insertion
    sort; rows created at the same time keep an order the store decides. *)

Module Discovery.

Record AgentRow := {
  ar_agent_id : str;
  ar_account_id : str;
  ar_name : str;
  ar_description : option str;
  ar_created_at : Time
}.

Record WorkflowInfo := {
  wi_workflow_id : str;
  wi_name : str;
  wi_description : option str
}.

Record AgentInfo := {
  ai_agent_id : str;
  ai_name : str;
  ai_description : option str;
  ai_workflows : list WorkflowInfo
}.

(** The instance: its account and the thread manager's current agent, if
    it has one. *)
Record Self := {
  d_account_id : str;
  current_agent_id : option str
}.

(** [.order('created_at', desc=True)] *)
Fixpoint insert_desc (r : AgentRow) (l : list AgentRow) : list AgentRow :=
  match l with
  | [] => [r]
  | x :: t =>
      if (ar_created_at x <? ar_created_at r)%Z then r :: l
      else x :: insert_desc r t
  end.

Definition order_desc (l : list AgentRow) : list AgentRow :=
  fold_right insert_desc [] l.

(** [agent_id == getattr(self.thread_manager, 'current_agent_id', None)] *)
Definition is_current (self : Self) (agent_id : str) : bool :=
  match current_agent_id self with
  | Some c => PyStr.eqb agent_id c
  | None => false
  end.

Definition workflows_of (agent_workflows : list Workflow) (agent_id : str)
  : list WorkflowInfo :=
  map (fun wf => {| wi_workflow_id := wf_id wf; wi_name := wf_name wf;
                    wi_description := wf_description wf |})
      (filter (fun wf => PyStr.eqb (wf_agent_id wf) agent_id) agent_workflows).

(** The [for agent in agents_result.data] loop. *)
Fixpoint discover_loop (self : Self) (agent_workflows : list Workflow)
  (rows : list AgentRow) : list AgentInfo :=
  match rows with
  | [] => []
  | agent :: rest =>
      let agent_id := ar_agent_id agent in
      if is_current self agent_id
      then discover_loop self agent_workflows rest
      else
        {| ai_agent_id := agent_id;
           ai_name := ar_name agent;
           ai_description := ar_description agent;
           ai_workflows := workflows_of agent_workflows agent_id |}
        :: discover_loop self agent_workflows rest
  end.

(** The list [discover_agents] hands to [success_response]. *)
Definition discover_agents (self : Self) (agents_table : list AgentRow)
  (agent_workflows : list Workflow) : list AgentInfo :=
  let agents_result :=
    order_desc (filter (fun r => PyStr.eqb (ar_account_id r)
                                   (d_account_id self)) agents_table) in
  match agents_result with
  | [] => []
  | _ => discover_loop self agent_workflows agents_result
  end.

(** A row the discovery lists: owned by the account and not the current
    agent. *)
Definition listed (self : Self) (r : AgentRow) : bool :=
  PyStr.eqb (ar_account_id r) (d_account_id self)
  && negb (is_current self (ar_agent_id r)).

Definition info_of (agent_workflows : list Workflow) (r : AgentRow)
  : AgentInfo :=
  {| ai_agent_id := ar_agent_id r;
     ai_name := ar_name r;
     ai_description := ar_description r;
     ai_workflows := workflows_of agent_workflows (ar_agent_id r) |}.

Definition newer_first (a b : AgentRow) : Prop :=
  (ar_created_at b <= ar_created_at a)%Z.

Definition me : Self :=
  {| d_account_id := py "acct"; current_agent_id := Some (py "A0") |}.

Definition rows0 : list AgentRow :=
  [ {| ar_agent_id := py "A0"; ar_account_id := py "acct";
       ar_name := py "self"; ar_description := None; ar_created_at := 5%Z |};
    {| ar_agent_id := py "A1"; ar_account_id := py "acct";
       ar_name := py "analyst"; ar_description := None; ar_created_at := 7%Z |};
    {| ar_agent_id := py "B1"; ar_account_id := py "other";
       ar_name := py "foreign"; ar_description := None; ar_created_at := 9%Z |};
    {| ar_agent_id := py "A2"; ar_account_id := py "acct";
       ar_name := py "writer"; ar_description := None; ar_created_at := 8%Z |} ].

End Discovery.

(** * Properties *)

Unset Implicit Arguments.

(** Division by a constant is linear arithmetic. *)
Ltac Zify.zify_post_hook ::= Z.to_euclidean_division_equations.

(** ** Facts about Python strings *)

Section StringFacts.

Lemma eqb_refl (a : str) : PyStr.eqb a a = true.
Proof.
  induction a as [|c a IH]; simpl; [reflexivity|].
  now rewrite Ascii.eqb_refl.
Qed.

Lemma eqb_eq (a b : str) : PyStr.eqb a b = true <-> a = b.
Proof.
  split.
  - revert b; induction a as [|x a IH]; intros [|y b]; simpl;
      try discriminate; [reflexivity|].
    intros H. apply andb_true_iff in H as [Hxy Hab].
    apply Ascii.eqb_eq in Hxy. f_equal; [assumption | now apply IH].
  - intros ->. apply eqb_refl.
Qed.

Lemma eqb_neq (a b : str) : PyStr.eqb a b = false <-> a <> b.
Proof.
  rewrite <- eqb_eq. destruct (PyStr.eqb a b); split; congruence.
Qed.

Lemma startswith_nil (s : str) : startswith s [] = true.
Proof. now destruct s. Qed.

Lemma startswith_app (p s : str) : startswith (p ++ s) p = true.
Proof.
  induction p as [|c p IH]; simpl; [apply startswith_nil|].
  now rewrite Ascii.eqb_refl.
Qed.

Lemma startswith_spec (s p : str) :
  startswith s p = true <-> exists rest, s = p ++ rest.
Proof.
  split.
  - revert s; induction p as [|x p IH]; intros s H.
    + now exists s.
    + destruct s as [|y s]; simpl in H; [discriminate|].
      apply andb_true_iff in H as [Hxy Hs].
      apply Ascii.eqb_eq in Hxy; subst y.
      destruct (IH _ Hs) as [rest ->]. now exists rest.
  - intros [rest ->]. apply startswith_app.
Qed.

Lemma contains_cons (sub : str) (c : ascii) (s : str) :
  contains sub s = true -> contains sub (c :: s) = true.
Proof.
  intros H. simpl. rewrite H. apply orb_true_r.
Qed.

Lemma contains_app_r (sub a b : str) :
  contains sub b = true -> contains sub (a ++ b) = true.
Proof.
  intros H. induction a as [|c a IH]; [exact H|].
  simpl app. now apply contains_cons.
Qed.

Lemma contains_unfold (sub s : str) :
  contains sub s =
  startswith s sub
  || match s with
     | [] => false
     | _ :: t => contains sub t
     end.
Proof. now destruct s. Qed.

Lemma contains_here (sub rest : str) : contains sub (sub ++ rest) = true.
Proof. rewrite contains_unfold. now rewrite startswith_app. Qed.

(** [sub in s] holds exactly when [sub] occurs somewhere in [s]. *)
Lemma contains_spec (sub s : str) :
  contains sub s = true <-> exists a b, s = a ++ sub ++ b.
Proof.
  split.
  - induction s as [|c s IH]; rewrite contains_unfold; intros H.
    + rewrite orb_false_r in H.
      apply startswith_spec in H as [rest E]. now exists [], rest.
    + apply orb_true_iff in H as [H|H].
      * apply startswith_spec in H as [rest E]. exists [], rest. exact E.
      * destruct (IH H) as (a & b & ->). now exists (c :: a), b.
  - intros (a & b & ->). apply contains_app_r, contains_here.
Qed.

Lemma lstrip_all_space (s : str) :
  forallb is_space s = true -> lstrip s = [].
Proof.
  induction s as [|c s IH]; simpl; [reflexivity|].
  intros H. apply andb_true_iff in H as [Hc Hs]. rewrite Hc. now apply IH.
Qed.

Lemma strip_all_space (s : str) :
  forallb is_space s = true -> strip s = [].
Proof.
  intros H. unfold strip. now rewrite lstrip_all_space.
Qed.

Lemma lstrip_nil_inv (s : str) : lstrip s = [] -> forallb is_space s = true.
Proof.
  induction s as [|c s IH]; simpl; [reflexivity|].
  destruct (is_space c); [exact IH | discriminate].
Qed.

Lemma strip_nil_inv (s : str) : strip s = [] -> forallb is_space s = true.
Proof.
  unfold strip, rstrip. intros H.
  assert (E : lstrip (rev (lstrip s)) = []).
  { rewrite <- (rev_involutive (lstrip (rev (lstrip s)))). now rewrite H. }
  apply lstrip_nil_inv in E.
  assert (L : lstrip s = []).
  { destruct (lstrip s) as [|c t] eqn:El; [reflexivity|].
    exfalso. rewrite forallb_forall in E.
    assert (Hc : is_space c = true) by (apply E, in_rev; rewrite rev_involutive; now left).
    clear E H. induction s as [|x s IH]; simpl in El; [discriminate|].
    destruct (is_space x) eqn:Ex; [now apply IH|].
    injection El as -> _. congruence. }
  now apply lstrip_nil_inv.
Qed.

Lemma len_app (a b : str) : len (a ++ b) = (len a + len b)%Z.
Proof. unfold len. rewrite length_app. lia. Qed.

Lemma len_nonneg (a : str) : (0 <= len a)%Z.
Proof. unfold len. lia. Qed.

(** A negative index counts from the end. *)
Lemma slice_from_tail (s : str) (k : Z) :
  (0 < k <= len s)%Z ->
  slice_from s (- k) = skipn (List.length s - Z.to_nat k) s.
Proof.
  intros H. unfold slice_from.
  destruct (Z.ltb_spec (- k) 0); [|lia].
  f_equal. unfold len in *. lia.
Qed.

End StringFacts.

(** ** Result extraction *)

(** C10: a transcript that is empty or made of whitespace only yields the
    fixed text "No output received". *)
Theorem blank_transcript_no_output (transcript : str) :
  forallb is_space transcript = true ->
  _extract_last_message transcript = py "No output received".
Proof.
  intros H. unfold _extract_last_message.
  now rewrite (strip_all_space _ H).
Qed.

Lemma blank_transcript_no_output_witness :
  _extract_last_message (py "
   ") = py "No output received".
Proof. apply blank_transcript_no_output. reflexivity. Defined.

Lemma truncation_prefix_len (n : Z) :
  len (truncation_prefix n) = (30 + len (of_Z n))%Z.
Proof.
  unfold truncation_prefix. rewrite !len_app.
  change (len (py "...[truncated ")) with 14%Z.
  change (len (py " characters]...")) with 15%Z.
  change (len [newline]) with 1%Z. lia.
Qed.

(** C6: full-mode extraction with a positive budget returns a text of at
    most [budget*4] characters unchanged; a longer one is cut from the
    front, keeping exactly its last [budget*4] characters behind a prefix
    that states how many characters were elided, so the output is never
    longer than [budget*4] plus that prefix. *)
Theorem truncate_from_end_spec (text : str) (budget : Z) :
  (0 < budget)%Z ->
  let out := _truncate_from_end text budget in
  ((len text <= budget * 4)%Z -> out = text) /\
  ((budget * 4 < len text)%Z ->
     exists elided kept,
       text = elided ++ kept /\ len kept = (budget * 4)%Z /\
       out = truncation_prefix (len elided) ++ kept) /\
  (len out <= budget * 4 + len (truncation_prefix (len text - budget * 4)))%Z /\
  (len (truncation_prefix (len text - budget * 4))
   = 30 + len (of_Z (len text - budget * 4)))%Z.
Proof.
  intros Hb out. subst out. unfold _truncate_from_end.
  destruct (Z.leb_spec budget 0) as [?|_]; [lia|].
  pose proof (len_nonneg (truncation_prefix (len text - budget * 4))) as Hp.
  destruct (Z.leb_spec (len text) (budget * 4)) as [Hle|Hgt].
  - repeat split; [lia| |apply truncation_prefix_len]. lia.
  - assert (Hk : (0 < budget * 4 <= len text)%Z) by lia.
    rewrite (slice_from_tail _ _ Hk).
    set (d := List.length text - Z.to_nat (budget * 4)).
    assert (Hd : Z.of_nat d = (len text - budget * 4)%Z)
      by (unfold d, len in *; lia).
    assert (Hkept : len (skipn d text) = (budget * 4)%Z)
      by (unfold len in *; rewrite length_skipn; lia).
    repeat split; [lia| | |apply truncation_prefix_len].
    + intros _. exists (firstn d text), (skipn d text).
      split; [symmetry; apply firstn_skipn|]. split; [exact Hkept|].
      f_equal. f_equal. unfold len. rewrite length_firstn.
      unfold len in *. lia.
    + rewrite len_app, Hkept. lia.
Qed.

Lemma truncate_from_end_spec_witness :
  let text := py "abcdefghijklmnopqrstuvwxyz" in
  exists elided kept,
    text = elided ++ kept /\ len kept = 8%Z /\
    _truncate_from_end text 2 = truncation_prefix (len elided) ++ kept.
Proof.
  intros text.
  assert (Hb : (0 < 2)%Z) by lia.
  destruct (truncate_from_end_spec text 2 Hb) as (_ & H & _).
  apply H. vm_compute. reflexivity.
Defined.

(** ** Model resolution *)

Lemma recognized_spec (m : str) :
  recognized m = true <->
  exists provider a b, In provider providers /\ lower m = a ++ provider ++ b.
Proof.
  unfold recognized. rewrite existsb_exists. split.
  - intros (p & Hin & Hc). apply contains_spec in Hc as (a & b & E).
    now exists p, a, b.
  - intros (p & a & b & Hin & E). exists p. split; [exact Hin|].
    apply contains_spec. now exists a, b.
Qed.

(** C5: model resolution is a total function of the request alone: a
    request that names a recognized provider family passes through
    unchanged, every other request, the absent one included, yields the
    one default model, which is itself a recognized name. *)
Theorem model_resolution_spec (requested : option str) :
  _get_fallback_model requested
  = match requested with
    | Some m => if recognized m then m else fallback_model
    | None => fallback_model
    end
  /\ recognized (_get_fallback_model requested) = true
  /\ _get_fallback_model (Some (_get_fallback_model requested))
     = _get_fallback_model requested.
Proof.
  assert (E : _get_fallback_model requested
              = match requested with
                | Some m => if recognized m then m else fallback_model
                | None => fallback_model
                end).
  { destruct requested as [[|c m]|]; reflexivity. }
  assert (R : recognized (_get_fallback_model requested) = true).
  { rewrite E. destruct requested as [m|]; [|reflexivity].
    destruct (recognized m) eqn:Hm; [exact Hm | reflexivity]. }
  repeat split; [exact E | exact R |].
  set (r := _get_fallback_model requested) in *.
  unfold _get_fallback_model at 1. rewrite R.
  destruct r as [|c r']; [vm_compute in R; discriminate R | reflexivity].
Qed.

(** ** Last-message extraction *)

Section LastMessage.

Lemma find_app_none {A} (p : A -> bool) (a b : list A) :
  find p a = None -> find p (a ++ b) = find p b.
Proof.
  induction a as [|x a IH]; simpl; [reflexivity|].
  destruct (p x); [discriminate | exact IH].
Qed.

Lemma find_none_all {A} (p : A -> bool) (l : list A) :
  forallb (fun x => negb (p x)) l = true -> find p l = None.
Proof.
  induction l as [|x l IH]; simpl; [reflexivity|].
  intros H. apply andb_true_iff in H as [Hx Hl].
  destruct (p x); [discriminate | now apply IH].
Qed.

Lemma forallb_rev {A} (p : A -> bool) (l : list A) :
  forallb p l = true -> forallb p (rev l) = true.
Proof.
  rewrite !forallb_forall. intros H x Hx. apply H. now apply in_rev.
Qed.

Lemma find_last_substantial (pre post : list str) (line : str) :
  substantial line = true ->
  forallb structural post = true ->
  find substantial (rev (pre ++ line :: post)) = Some line.
Proof.
  intros Hl Hpost.
  rewrite rev_app_distr. simpl rev. rewrite <- app_assoc.
  rewrite find_app_none.
  - simpl. now rewrite Hl.
  - apply find_none_all, forallb_rev, Hpost.
Qed.

Lemma index_first (pre post : list str) (line : str) :
  ~ In line pre -> index (pre ++ line :: post) line = Some (List.length pre).
Proof.
  induction pre as [|x pre IH]; simpl; intros Hn.
  - now rewrite eqb_refl.
  - destruct (PyStr.eqb x line) eqn:E.
    + apply eqb_eq in E. exfalso. apply Hn. now left.
    + rewrite IH; [reflexivity|]. intros Hin. apply Hn. now right.
Qed.

(** C7, amended: on a transcript that is not blank, the lines of the
    stripped transcript are scanned from the end for the first line that is
    not blank and does not start with a heading or fence marker.  When the
    text of that line does not also occur earlier, the answer is, stripped,
    the text from at most three lines before it to the end of the
    transcript: the line, up to three lines of context before it, and every
    line after it.  When there is no such line, the answer is the stripped
    trailing fifth (rounded up) of a transcript longer than 100 characters,
    and the unchanged transcript otherwise. *)
Theorem extract_last_message_spec (transcript : str) :
  strip transcript <> [] ->
  let lines := split_nl (strip transcript) in
  (forall pre line post,
     lines = pre ++ line :: post ->
     substantial line = true ->
     forallb structural post = true ->
     ~ In line pre ->
     _extract_last_message transcript
     = strip (join_nl (skipn (List.length pre - 3) pre ++ line :: post)))
  /\
  (forallb structural lines = true ->
     _extract_last_message transcript
     = if (100 <? len transcript)%Z
       then strip (skipn (Z.to_nat (len transcript
                                    - (len transcript + 4) / 5)) transcript)
       else transcript).
Proof.
  intros Hne lines. unfold _extract_last_message.
  apply eqb_neq in Hne. rewrite Hne. fold lines. split.
  - intros pre line post E Hl Hpost Hdup. rewrite E.
    rewrite (find_last_substantial pre post line Hl Hpost).
    rewrite (index_first pre post line Hdup).
    replace (Z.to_nat (Z.max 0 (Z.of_nat (List.length pre) - 3)))
      with (List.length pre - 3) by lia.
    rewrite skipn_app.
    replace (List.length pre - 3 - List.length pre) with 0 by lia.
    reflexivity.
  - intros Hall.
    rewrite (find_none_all substantial (rev lines)
               (forallb_rev _ _ Hall)).
    destruct (Z.ltb_spec 100 (len transcript)) as [Hlong|_]; [|reflexivity].
    f_equal. unfold slice_from.
    destruct (Z.ltb_spec (- len transcript / 5) 0) as [_|Hge];
      [|lia].
    f_equal. pose proof (len_nonneg transcript). lia.
Qed.

Lemma extract_last_message_spec_witness :
  _extract_last_message (py "intro
a
b
c
Done: pong
```")
  = py "a
b
c
Done: pong
```".
Proof.
  assert (Hne : strip (py "intro
a
b
c
Done: pong
```") <> []) by (vm_compute; discriminate).
  destruct (extract_last_message_spec _ Hne) as [H _].
  apply (H [py "intro"; py "a"; py "b"; py "c"] (py "Done: pong") [py "```"]).
  - reflexivity.
  - reflexivity.
  - reflexivity.
  - vm_compute. intros [H1|[H1|[H1|[H1|[]]]]]; discriminate H1.
Defined.

(** C7 as stated fails: a heading after the selected line is returned
    too, where the stated behaviour returns the line and its context. *)
Lemma extract_last_message_counterexample :
  _extract_last_message (py "answer
# end") = py "answer
# end"
  /\ spec_extract_last_message (py "answer
# end") = py "answer"
  /\ _extract_last_message (py "answer
# end") <> spec_extract_last_message (py "answer
# end").
Proof. vm_compute. repeat split. discriminate. Qed.

(** The fallback strips the trailing fifth: of 105 characters, 14 are
    returned, not 21. *)
Example fallback_is_stripped :
  let t := py "#" ++ repeat "A"%char 80 ++ repeat newline 10
           ++ py "#" ++ repeat "B"%char 13 in
  len t = 105%Z
  /\ _extract_last_message t = py "#" ++ repeat "B"%char 13
  /\ spec_extract_last_message t
     = repeat newline 7 ++ py "#" ++ repeat "B"%char 13.
Proof. vm_compute. repeat split. Qed.

(** A selected line whose text also occurs earlier is looked up at its
    first occurrence, and the context then reaches back to there. *)
Example repeated_line_context :
  _extract_last_message (py "ok
a
b
c
d
ok") = py "ok
a
b
c
d
ok".
Proof. vm_compute. reflexivity. Qed.

End LastMessage.

(** ** Running monadic code *)

Lemma contains_app_l (sub a b : str) :
  contains sub a = true -> contains sub (a ++ b) = true.
Proof.
  intros H. apply contains_spec in H as (x & y & ->).
  apply contains_spec. exists x, (y ++ b). now rewrite <- !app_assoc.
Qed.

Lemma timeout_result_is_error (timeout : Z) :
  contains (py "Error:") (timeout_result timeout) = true
  /\ contains (py "timed out") (timeout_result timeout) = true.
Proof.
  unfold timeout_result. split.
  - apply contains_app_l. reflexivity.
  - apply contains_app_l. reflexivity.
Qed.

Lemma process_result_error (self : Env) (agent_id execution_mode : str)
  (workflow_id : option str) (model_name output_mode : str) (max_tokens : Z)
  (raw_result : str) (w : World) :
  contains (py "Error:") raw_result = true ->
  exists d,
    process_result self agent_id execution_mode workflow_id model_name
      output_mode max_tokens raw_result w
    = (Ok (fail_response (Data d)), set_ticks (S (ticks w)) w)
    /\ resp_status d = status_failed
    /\ resp_result d = raw_result
    /\ resp_max_tokens d = max_tokens.
Proof.
  intros H. unfold process_result. rewrite H.
  eexists. split; [reflexivity|]. repeat split.
Qed.

Lemma process_result_ok (self : Env) (agent_id execution_mode : str)
  (workflow_id : option str) (model_name output_mode : str) (max_tokens : Z)
  (raw_result : str) (w : World) :
  contains (py "Error:") raw_result = false ->
  exists d,
    process_result self agent_id execution_mode workflow_id model_name
      output_mode max_tokens raw_result w
    = (Ok (success_response (Data d)), set_ticks (S (ticks w)) w)
    /\ resp_status d = status_completed
    /\ resp_result d
       = (if PyStr.eqb output_mode out_last_message
          then _extract_last_message raw_result
          else if PyStr.eqb output_mode out_full
          then _truncate_from_end raw_result max_tokens
          else raw_result)
    /\ resp_max_tokens d = max_tokens.
Proof.
  intros H. unfold process_result. rewrite H.
  eexists. split; [reflexivity|]. repeat split.
Qed.

Lemma mark_failed_run (self : Env) (agent_run_id : nat) (error : str)
  (w : World) :
  _mark_agent_run_as_failed self agent_run_id error w
  = (Ok tt,
     set_agent_runs
       (map (fun r => if Nat.eqb (run_id r) agent_run_id
                      then mark_failed error (clock self (ticks w)) r else r)
            (agent_runs w))
       (set_ticks (S (ticks w)) w)).
Proof. reflexivity. Qed.

(** ** The supervisor's deadline *)

Lemma get_result_total (self : Env) (agent_run_id thread : nat)
  (timeout : Z) (w : World) :
  exists text,
    _get_agent_execution_result self agent_run_id thread timeout w
    = (Ok text, w).
Proof.
  unfold _get_agent_execution_result, try_except, bind, get, ret.
  cbv beta iota.
  destruct (filter _ (agent_runs w)) as [|r rs]; [eauto|].
  destruct (PyStr.eqb (run_status r) status_failed); [eauto|].
  destruct (PyStr.eqb (run_status r) status_completed); cbn [negb];
    [|eauto].
  cbv beta iota. destruct (rev _) as [|m ms]; eauto.
Qed.

(** C2, amended: when the runtime task has not finished at the deadline
    and ends cancelled, the supervisor requests its cancellation, records
    the run as failed with the error "Execution timed out" and a completion
    time, leaves every other run as it is, and answers with an error text
    that [call_agent] turns into a failed response.  When the task swallows
    the cancellation and returns, no timeout is handled: the supervisor
    writes nothing and answers with what the run reads as, which for a run
    still running is "Agent execution incomplete (status: running)". *)
Theorem timeout_finalises_run (self : Env) (task : World -> TaskOutcome)
  (agent_run_id thread : nat) (timeout : Z) (w w' : World) :
  (task w = TaskTimedOut w' true ->
   In agent_run_id (map run_id (agent_runs w')) ->
   exists w'',
     await_completion self task agent_run_id thread timeout w
     = (Ok (timeout_result timeout), w'')
     /\ events w'' = events w' ++ [TaskCancelled agent_run_id]
     /\ agent_runs w''
        = map (fun r => if Nat.eqb (run_id r) agent_run_id
                        then mark_failed (py "Execution timed out")
                               (clock self (ticks w')) r
                        else r) (agent_runs w')
     /\ (exists r, In r (agent_runs w'') /\ run_id r = agent_run_id
                   /\ run_status r = status_failed
                   /\ error_message r = Some (py "Execution timed out")
                   /\ completed_at r = Some (clock self (ticks w')))
     /\ contains (py "timed out") (py "Execution timed out") = true
     /\ contains (py "timed out") (timeout_result timeout) = true
     /\ (forall agent_id execution_mode workflow_id model_name output_mode
                max_tokens,
           exists d w3,
             process_result self agent_id execution_mode workflow_id
               model_name output_mode max_tokens (timeout_result timeout) w''
             = (Ok (fail_response (Data d)), w3)
             /\ resp_status d = status_failed
             /\ resp_result d = timeout_result timeout))
  /\
  (task w = TaskTimedOut w' false ->
   await_completion self task agent_run_id thread timeout w
   = _get_agent_execution_result self agent_run_id thread 10 w'
   /\ snd (await_completion self task agent_run_id thread timeout w) = w'
   /\ (forall r rs,
         filter (fun r => Nat.eqb (run_id r) agent_run_id) (agent_runs w')
         = r :: rs ->
         run_status r = status_running ->
         await_completion self task agent_run_id thread timeout w
         = (Ok (py "Agent execution incomplete (status: running)"), w'))).
Proof.
  split.
  - intros Htask Hin.
    eexists. split.
    { unfold await_completion, try_except, bind, wait_for. rewrite Htask.
      cbv beta iota. unfold emit, modify. cbv beta iota.
      rewrite mark_failed_run. reflexivity. }
    split; [reflexivity|]. split; [reflexivity|].
    split.
    { apply in_map_iff in Hin as (r & Hid & Hr).
      exists (mark_failed (py "Execution timed out") (clock self (ticks w')) r).
      split.
      - cbn [agent_runs set_agent_runs set_ticks set_events].
        apply in_map_iff. exists r. split; [|exact Hr].
        rewrite Hid, Nat.eqb_refl. reflexivity.
      - repeat split. exact Hid. }
    split; [reflexivity|].
    split; [apply timeout_result_is_error|].
    intros.
    destruct (process_result_error self agent_id execution_mode workflow_id
                model_name output_mode max_tokens (timeout_result timeout)
                (set_agent_runs
                   (map (fun r => if Nat.eqb (run_id r) agent_run_id
                        then mark_failed (py "Execution timed out")
                               (clock self (ticks w')) r else r)
                        (agent_runs w'))
                   (set_ticks (S (ticks w'))
                      (set_events (events w' ++ [TaskCancelled agent_run_id])
                         w')))
                (proj1 (timeout_result_is_error timeout)))
      as (d & E & Hs & Hr & _).
    exists d. eexists. split; [exact E|]. now split.
  - intros Htask.
    assert (E : await_completion self task agent_run_id thread timeout w
                = _get_agent_execution_result self agent_run_id thread 10 w').
    { unfold await_completion, try_except, bind, wait_for. rewrite Htask.
      destruct (get_result_total self agent_run_id thread 10 w') as (s & Es).
      now rewrite Es. }
    split; [exact E|]. split.
    + rewrite E.
      destruct (get_result_total self agent_run_id thread 10 w') as (s & Es).
      now rewrite Es.
    + intros r rs Hr Hs. rewrite E.
      unfold _get_agent_execution_result, try_except, bind, get, ret.
      cbv beta iota. rewrite Hr, Hs. reflexivity.
Qed.

Lemma timeout_finalises_run_witness :
  (exists w'',
     await_completion Scenario.bare (fun w => TaskTimedOut w true) 2 0 300
       Scenario.w_running
     = (Ok (timeout_result 300), w'')
     /\ events w'' = events Scenario.w_running ++ [TaskCancelled 2])
  /\ await_completion Scenario.bare (fun w => TaskTimedOut w false) 2 0 300
       Scenario.w_running
     = (Ok (py "Agent execution incomplete (status: running)"),
        Scenario.w_running).
Proof.
  split.
  - destruct (proj1 (timeout_finalises_run Scenario.bare
                       (fun w => TaskTimedOut w true) 2 0 300
                       Scenario.w_running Scenario.w_running))
      as (w'' & E & Ev & _).
    + reflexivity.
    + vm_compute. left. reflexivity.
    + exists w''. split; assumption.
  - destruct (proj2 (timeout_finalises_run Scenario.bare
                       (fun w => TaskTimedOut w false) 2 0 300
                       Scenario.w_running Scenario.w_running))
      as (_ & _ & H); [reflexivity|].
    apply (H (new_run (py "A1") fallback_model 300 None 2 0 1000%Z) []);
      reflexivity.
Defined.

(** C2 as stated fails: a task that misses the deadline and swallows the
    cancellation makes the wait end without a timeout.  The run is left
    running, no cancellation is requested by the supervisor, and the
    caller is told the delegation completed. *)
Lemma timeout_without_finalisation :
  let r := call_agent (Scenario.with_runtime Cases.stubborn_runtime)
             (py "A1") (py "ping") mode_prompt None None 300 1000
             out_last_message Scenario.w0 in
  (exists d,
     fst r = Ok (success_response (Data d))
     /\ resp_status d = status_completed
     /\ resp_result d = py "Agent execution incomplete (status: running)")
  /\ Scenario.run_summary 2 (snd r) = Some (status_running, None, None)
  /\ events (snd r) = [TaskCreated 2]
  /\ Scenario.run_summary 2 (snd r)
     <> Some (status_failed, Some (py "Execution timed out"), Some 1001%Z).
Proof.
  vm_compute. split; [eexists; repeat split|].
  split; [reflexivity|]. split; [reflexivity | discriminate].
Qed.

(** ** Finalising twice *)

(** The single-run cleanup does not touch a run that is already
    completed or failed. *)
Lemma cleanup_terminal_noop (self : Env) (agent_run_id : nat) (w : World)
  (r : AgentRun) (rest : list AgentRun) :
  filter (fun r => Nat.eqb (run_id r) agent_run_id) (agent_runs w)
  = r :: rest ->
  member (run_status r) [status_completed; status_failed] = true ->
  cleanup_stuck_agent_run self agent_run_id w = (Ok true, w).
Proof.
  intros Hf Hm. unfold cleanup_stuck_agent_run, try_except, bind, get.
  rewrite Hf, Hm. reflexivity.
Qed.

(** [_mark_agent_run_as_failed] writes whatever the run's status is. *)
Lemma mark_failed_overwrites (self : Env) (agent_run_id : nat) (error : str)
  (w : World) (r : AgentRun) :
  In r (agent_runs w) -> run_id r = agent_run_id ->
  In (mark_failed error (clock self (ticks w)) r)
     (agent_runs (snd (_mark_agent_run_as_failed self agent_run_id error w))).
Proof.
  intros Hin Hid. rewrite mark_failed_run. cbn.
  apply in_map_iff. exists r. split; [|exact Hin].
  now rewrite Hid, Nat.eqb_refl.
Qed.

(** C1 fails on the code.  A run is finalised by the single-run cleanup
    while the supervisor still waits for it; at the deadline the
    supervisor's write replaces the recorded error and completion time.
    The cleanup itself, run again, changes nothing. *)
Theorem timeout_write_overwrites_first_finalize :
  let w1 := snd (cleanup_stuck_agent_run Scenario.bare 2 Scenario.w_running) in
  let w2 := snd (await_completion Scenario.bare
                   (fun w => TaskTimedOut w1 true) 2 0 300
                   Scenario.w_running) in
  Scenario.run_summary 2 Scenario.w_running
  = Some (status_running, None, None)
  /\ Scenario.run_summary 2 w1
     = Some (status_failed, Some (py "Agent run was stuck and cleaned up"),
             Some 1001%Z)
  /\ Scenario.run_summary 2 w2
     = Some (status_failed, Some (py "Execution timed out"), Some 1002%Z)
  /\ Scenario.run_summary 2 w2 <> Scenario.run_summary 2 w1
  /\ cleanup_stuck_agent_run Scenario.bare 2 w1 = (Ok true, w1).
Proof. vm_compute. repeat split. discriminate. Qed.

(** ** The stuck-run sweep *)

Lemma stuck_spec (account : str) (cutoff : Time) (r : AgentRun) :
  stuck account cutoff r = true <->
  run_account_id r = Some account /\ run_status r = status_running
  /\ (started_at r < cutoff)%Z.
Proof.
  unfold stuck. rewrite !andb_true_iff, Z.ltb_lt, eqb_eq.
  destruct (run_account_id r) as [a|].
  - rewrite eqb_eq. split.
    + intros [[-> H2] H3]. now repeat split.
    + intros ([= ->] & H2 & H3). now repeat split.
  - split; [intros [[H _] _]; discriminate | intros [H _]; discriminate].
Qed.

Lemma mark_failed_again (e : str) (t t' : Time) (r : AgentRun) :
  mark_failed e t' (mark_failed e t r) = mark_failed e t' r.
Proof. reflexivity. Qed.

Lemma sweep_loop_spec (cls : Env) (timeout_minutes : Z)
  (sel : list AgentRun) :
  forall (c : Z) (w : World),
  exists g w',
    sweep_loop cls timeout_minutes sel c w
    = (Ok (c + Z.of_nat (List.length sel))%Z, w')
    /\ agent_runs w' = map g (agent_runs w)
    /\ threads w' = threads w /\ messages w' = messages w
    /\ (forall r, run_id (g r) = run_id r)
    /\ (forall r,
          if existsb (Nat.eqb (run_id r)) (map run_id sel)
          then exists t, g r = mark_failed (sweep_message timeout_minutes) t r
          else g r = r).
Proof.
  induction sel as [|run rest IH]; intros c w.
  - exists (fun r => r), w. cbn. rewrite map_id, Z.add_0_r.
    repeat split; reflexivity.
  - set (msg := sweep_message timeout_minutes) in *.
    set (upd := fun r => if Nat.eqb (run_id r) (run_id run)
                         then mark_failed msg (clock cls (ticks w)) r else r).
    set (w1 := set_agent_runs (map upd (agent_runs w))
                 (set_ticks (S (ticks w)) w)).
    destruct (IH (c + 1)%Z w1) as (g & w' & E & Hruns & Ht & Hm & Hid & Hg).
    exists (fun r => g (upd r)), w'.
    assert (Hupd_id : forall r, run_id (upd r) = run_id r).
    { intros r. unfold upd. now destruct (Nat.eqb (run_id r) (run_id run)). }
    split.
    { change (sweep_loop cls timeout_minutes (run :: rest) c w)
        with (sweep_loop cls timeout_minutes rest (c + 1)%Z w1).
      rewrite E. f_equal. f_equal. cbn [List.length]. lia. }
    split; [rewrite Hruns; cbn; now rewrite map_map|].
    split; [exact Ht|]. split; [exact Hm|].
    split; [intros r; now rewrite Hid, Hupd_id|].
    intros r. cbn [map existsb].
    specialize (Hg (upd r)). rewrite Hupd_id in Hg.
    destruct (existsb (Nat.eqb (run_id r)) (map run_id rest)) eqn:Hrest.
    + rewrite orb_true_r. destruct Hg as [t Hg]. exists t. rewrite Hg.
      unfold upd. destruct (Nat.eqb (run_id r) (run_id run));
        [apply mark_failed_again | reflexivity].
    + rewrite orb_false_r. rewrite Hg. unfold upd.
      destruct (Nat.eqb (run_id r) (run_id run)); [|reflexivity].
      now exists (clock cls (ticks w)).
Qed.

Lemma NoDup_map_eq {A B} (f : A -> B) (l : list A) (a b : A) :
  NoDup (map f l) -> In a l -> In b l -> f a = f b -> a = b.
Proof.
  induction l as [|x l IH]; simpl; intros Hnd Ha Hb E; [contradiction|].
  inversion Hnd as [|? ? Hx Hl]; subst.
  destruct Ha as [->|Ha], Hb as [->|Hb]; auto.
  - exfalso. apply Hx. rewrite E. now apply in_map.
  - exfalso. apply Hx. rewrite <- E. now apply in_map.
Qed.

Lemma selected_by_id (p : AgentRun -> bool) (l : list AgentRun)
  (r : AgentRun) :
  NoDup (map run_id l) -> In r l ->
  existsb (Nat.eqb (run_id r)) (map run_id (filter p l)) = p r.
Proof.
  intros Hnd Hin. destruct (p r) eqn:Hp.
  - apply existsb_exists. exists (run_id r). split; [|apply Nat.eqb_refl].
    apply in_map, filter_In. now split.
  - destruct (existsb _ _) eqn:E; [|reflexivity].
    apply existsb_exists in E as (i & Hi & Heq).
    apply Nat.eqb_eq in Heq. subst i.
    apply in_map_iff in Hi as (r' & Hid & Hr').
    apply filter_In in Hr' as [Hr' Hp'].
    rewrite (NoDup_map_eq run_id l r r' Hnd Hin Hr' (eq_sym Hid)) in Hp.
    congruence.
Qed.

(** C8: with run ids being primary keys, the sweep fails exactly the runs
    of the given account that are running and were started strictly before
    the cutoff (the clock reading minus the threshold, where Python's
    datetime can represent it): each gets status failed, the standard
    message and a completion time; every other run is left as it is, and
    the answer is the number of runs failed. *)
Theorem sweep_fails_exactly_the_stuck_runs (cls : Env) (account : str)
  (timeout_minutes : Z) (w : World) :
  NoDup (map run_id (agent_runs w)) ->
  cutoff_ok (clock cls (ticks w)) timeout_minutes = true ->
  let cutoff := (clock cls (ticks w) - minutes timeout_minutes)%Z in
  let selected r :=
    run_account_id r = Some account /\ run_status r = status_running
    /\ (started_at r < cutoff)%Z in
  exists g w',
    cleanup_stuck_agent_runs_by_timeout cls account timeout_minutes w
    = (Ok (Z.of_nat (List.length (filter (stuck account cutoff)
                                         (agent_runs w)))), w')
    /\ (forall r, stuck account cutoff r = true <-> selected r)
    /\ agent_runs w' = map g (agent_runs w)
    /\ (forall r, In r (agent_runs w) -> selected r ->
          exists t, g r = mark_failed (sweep_message timeout_minutes) t r)
    /\ (forall r, In r (agent_runs w) -> ~ selected r -> g r = r)
    /\ threads w' = threads w /\ messages w' = messages w.
Proof.
  intros Hnd Hok cutoff selected.
  set (sel := filter (stuck account cutoff) (agent_runs w)).
  set (w0 := set_ticks (S (ticks w)) w).
  destruct (sweep_loop_spec cls timeout_minutes sel 0%Z w0)
    as (g & w' & E & Hruns & Ht & Hm & _ & Hg).
  assert (Hsel : forall r, In r (agent_runs w) ->
            existsb (Nat.eqb (run_id r)) (map run_id sel)
            = stuck account cutoff r)
    by (intros r Hr; now apply selected_by_id).
  assert (Hrun : cleanup_stuck_agent_runs_by_timeout cls account
                   timeout_minutes w
                 = match sel with
                   | [] => (Ok 0%Z, w0)
                   | _ => sweep_loop cls timeout_minutes sel 0%Z w0
                   end).
  { unfold cleanup_stuck_agent_runs_by_timeout, try_except, bind, now, get,
      minus_minutes.
    cbv beta iota. rewrite Hok. unfold ret. cbv beta iota. fold cutoff.
    change (agent_runs (set_ticks _ w)) with (agent_runs w).
    fold sel. fold w0.
    destruct sel; [reflexivity|]. now rewrite E. }
  destruct sel as [|s0 sel'] eqn:Esel.
  - exists (fun r => r), w0. rewrite Hrun.
    split; [reflexivity|]. split; [intros r; apply stuck_spec|].
    split; [cbn; now rewrite map_id|].
    split.
    + intros r Hr Hs. apply stuck_spec in Hs.
      assert (Hin : In r sel) by (unfold sel; apply filter_In; now split).
      rewrite Esel in Hin. contradiction.
    + repeat split.
  - exists g, w'. rewrite Hrun, E.
    split; [reflexivity|]. split; [intros r; apply stuck_spec|].
    split; [exact Hruns|].
    split; [|split; [|split; assumption]].
    + intros r Hr Hs. specialize (Hg r). rewrite (Hsel r Hr) in Hg.
      apply stuck_spec in Hs. fold cutoff in Hs. now rewrite Hs in Hg.
    + intros r Hr Hs. specialize (Hg r). rewrite (Hsel r Hr) in Hg.
      destruct (stuck account cutoff r) eqn:Hst; [|exact Hg].
      exfalso. apply Hs. now apply stuck_spec.
Qed.

(** With a threshold of 30 minutes, the run started 31 minutes ago is
    failed; the one started 10 minutes ago and the other account's run are
    untouched. *)
Lemma sweep_fails_exactly_the_stuck_runs_witness :
  exists w',
    cleanup_stuck_agent_runs_by_timeout Scenario.bare (py "acct") 30
      Scenario.w_sweep = (Ok 1%Z, w')
    /\ Scenario.run_summary 1 w'
       = Some (status_failed,
               Some (py "Agent run timed out after 30 minutes"), Some 1001%Z)
    /\ Scenario.run_summary 2 w' = Some (status_running, None, None)
    /\ Scenario.run_summary 3 w' = Some (status_running, None, None).
Proof.
  assert (Hnd : NoDup (map run_id (agent_runs Scenario.w_sweep))).
  { cbn. repeat constructor; cbn; intuition discriminate. }
  destruct (sweep_fails_exactly_the_stuck_runs Scenario.bare (py "acct") 30
              Scenario.w_sweep Hnd eq_refl) as (g & w' & E & _).
  exists w'. split; [exact E|].
  assert (Ew : snd (cleanup_stuck_agent_runs_by_timeout Scenario.bare
                      (py "acct") 30 Scenario.w_sweep) = w')
    by (now rewrite E).
  rewrite <- Ew. vm_compute. repeat split.
Defined.

(** ** The entry point *)

Lemma try_ok {A} (m : M A) (h : Exn -> option (M A)) (w w' : World) (a : A) :
  m w = (Ok a, w') -> try_except m h w = (Ok a, w').
Proof. intros E. unfold try_except. now rewrite E. Qed.

Lemma try_bind_ok {A B} (m : M A) (k : A -> M B) (h : Exn -> option (M B))
  (w w1 : World) (a : A) :
  m w = (Ok a, w1) ->
  try_except (bind m k) h w = try_except (k a) h w1.
Proof. intros E. unfold try_except, bind. now rewrite E. Qed.

Lemma try_bind_raise {A B} (m : M A) (k : A -> M B)
  (h : Exn -> option (M B)) (w w1 : World) (e : Exn) :
  m w = (Raise e, w1) ->
  try_except (bind m k) h w
  = match h e with
    | Some k' => k' w1
    | None => (Raise e, w1)
    end.
Proof. intros E. unfold try_except, bind. now rewrite E. Qed.


Lemma verify_agent_access_spec (self : Env) (agent_id : str) (w : World) :
  (accessible self agent_id w
   /\ _verify_agent_access self agent_id w = (Ok tt, w))
  \/ (~ accessible self agent_id w
      /\ _verify_agent_access self agent_id w
         = (Raise (ValueError (py "Agent not found or access denied")), w)).
Proof.
  unfold _verify_agent_access, try_except, bind, get. cbv beta iota.
  destruct (filter _ (agents w)) as [|a l] eqn:E.
  - right. split; [|reflexivity].
    intros (a & Hin & H1 & H2).
    assert (Hf : In a (filter
      (fun a => PyStr.eqb (agent_id_of a) agent_id
                && PyStr.eqb (agent_account_id a) (account_id self))
      (agents w))).
    { apply filter_In. split; [exact Hin|].
      rewrite H1, H2, !eqb_refl. reflexivity. }
    rewrite E in Hf. contradiction.
  - left. split; [|reflexivity].
    assert (Hf : In a (filter
      (fun a => PyStr.eqb (agent_id_of a) agent_id
                && PyStr.eqb (agent_account_id a) (account_id self))
      (agents w))) by (rewrite E; now left).
    apply filter_In in Hf as [Hin Hb].
    apply andb_true_iff in Hb as [H1 H2].
    apply eqb_eq in H1, H2. now exists a.
Qed.

Lemma process_result_total (self : Env) (agent_id execution_mode : str)
  (workflow_id : option str) (model_name output_mode : str) (max_tokens : Z)
  (raw_result : str) (w : World) :
  exists d,
    process_result self agent_id execution_mode workflow_id model_name
      output_mode max_tokens raw_result w
    = (Ok {| success := negb (contains (py "Error:") raw_result);
             output := Data d |}, set_ticks (S (ticks w)) w)
    /\ resp_max_tokens d = max_tokens.
Proof.
  destruct (contains (py "Error:") raw_result) eqn:H.
  - destruct (process_result_error self agent_id execution_mode workflow_id
                model_name output_mode max_tokens raw_result w H)
      as (d & E & _ & _ & Hm).
    exists d. now split.
  - destruct (process_result_ok self agent_id execution_mode workflow_id
                model_name output_mode max_tokens raw_result w H)
      as (d & E & _ & _ & Hm).
    exists d. now split.
Qed.

(** Either [call_agent] answers with a plain error text, or the request
    was well formed and authorised and the answer is [process_result] of
    the raw execution result. *)
Lemma call_agent_cases (self : Env) (agent_id message execution_mode : str)
  (workflow_id model_name : option str) (timeout max_tokens : Z)
  (output_mode : str) (w : World) :
  (exists s w',
     call_agent self agent_id message execution_mode workflow_id model_name
       timeout max_tokens output_mode w
     = (Ok (fail_response (Text s)), w')
     /\ (well_formed execution_mode workflow_id ->
         accessible self agent_id w -> False \/
         exists e, dispatched self agent_id message execution_mode
                     workflow_id (_get_fallback_model model_name)
                     (Z.max 60 (Z.min 1800 timeout)) w = (Raise e, w')))
  \/
  (well_formed execution_mode workflow_id
   /\ accessible self agent_id w
   /\ exists raw w1,
        dispatched self agent_id message execution_mode workflow_id
          (_get_fallback_model model_name) (Z.max 60 (Z.min 1800 timeout)) w
        = (Ok raw, w1)
        /\ call_agent self agent_id message execution_mode workflow_id
             model_name timeout max_tokens output_mode w
           = process_result self agent_id execution_mode workflow_id
               (_get_fallback_model model_name)
               (effective_output_mode output_mode)
               (Z.max 100 (Z.min 4000 max_tokens)) raw w1).
Proof.
  unfold call_agent, well_formed, dispatched.
  destruct (member execution_mode [mode_prompt; mode_workflow]) eqn:Hm.
  2:{ left. do 2 eexists. split; [reflexivity|]. intros [? _]. discriminate. }
  cbn [negb].
  assert (Hwf : PyStr.eqb execution_mode mode_workflow && negb (truthy workflow_id)
                = false ->
                true = true /\
                (execution_mode = mode_workflow -> truthy workflow_id = true)).
  { intros H. split; [reflexivity|]. intros ->.
    rewrite eqb_refl in H. now destruct (truthy workflow_id). }
  destruct (PyStr.eqb execution_mode mode_workflow && negb (truthy workflow_id))
    eqn:Hv.
  { left. do 2 eexists. split; [reflexivity|]. intros [_ H].
    apply andb_true_iff in Hv as [Hw Ht]. apply eqb_eq in Hw.
    rewrite (H Hw) in Ht. discriminate. }
  specialize (Hwf eq_refl).
  destruct (verify_agent_access_spec self agent_id w) as [[Ha E]|[Ha E]].
  2:{ left. do 2 eexists. split.
      - erewrite try_bind_raise by exact E. reflexivity.
      - intros _ H. now left. }
  erewrite try_bind_ok by exact E.
  match goal with
  | |- context [try_except (bind ?m _) _ w] =>
      destruct (m w) as [[raw|e] w1] eqn:Ex
  end.
  - right. split; [exact Hwf|]. split; [exact Ha|].
    exists raw, w1. split; [reflexivity|].
    erewrite try_bind_ok by exact Ex.
    destruct (process_result_total self agent_id execution_mode workflow_id
                (_get_fallback_model model_name)
                (effective_output_mode output_mode)
                (Z.max 100 (Z.min 4000 max_tokens)) raw w1) as (d & Ep & _).
    rewrite Ep. eapply try_ok. exact Ep.
  - left. do 2 eexists. split.
    + erewrite try_bind_raise by exact Ex. reflexivity.
    + intros _ _. right. now exists e.
Qed.

Lemma try_catch_all_total {A} (m : M A) (h : Exn -> A) (w : World) :
  exists a w',
    try_except m (except_Exception (fun e => ret (h e))) w = (Ok a, w').
Proof.
  unfold try_except, except_Exception, ret.
  destruct (m w) as [[a|e] w']; eauto.
Qed.

(** The dispatched execution always answers with a text. *)
Lemma dispatched_total (self : Env) (agent_id message execution_mode : str)
  (workflow_id : option str) (model_name : str) (timeout : Z) (w : World) :
  exists raw w1,
    dispatched self agent_id message execution_mode workflow_id model_name
      timeout w = (Ok raw, w1).
Proof.
  unfold dispatched, _execute_agent_workflow, _execute_agent_prompt.
  destruct (PyStr.eqb execution_mode mode_workflow);
    apply try_catch_all_total.
Qed.

Lemma call_agent_denied (self : Env) (agent_id message execution_mode : str)
  (workflow_id model_name : option str) (timeout max_tokens : Z)
  (output_mode : str) (w : World) :
  well_formed execution_mode workflow_id ->
  ~ accessible self agent_id w ->
  call_agent self agent_id message execution_mode workflow_id model_name
    timeout max_tokens output_mode w
  = (Ok (fail_response
           (Text (py "Error calling agent: Agent not found or access denied"))),
     w).
Proof.
  intros [Hm Hw] Hna. unfold call_agent. rewrite Hm. cbn [negb].
  assert (Hv : PyStr.eqb execution_mode mode_workflow
               && negb (truthy workflow_id) = false).
  { destruct (PyStr.eqb execution_mode mode_workflow) eqn:E; [|reflexivity].
    apply eqb_eq in E. now rewrite (Hw E). }
  rewrite Hv.
  destruct (verify_agent_access_spec self agent_id w) as [[Ha _]|[_ E]];
    [contradiction|].
  erewrite try_bind_raise by exact E. reflexivity.
Qed.

(** A well-formed, authorised call answers with [process_result] of the
    raw text of the dispatched execution. *)
Lemma call_agent_authorised (self : Env) (agent_id message
  execution_mode : str) (workflow_id model_name : option str)
  (timeout max_tokens : Z) (output_mode : str) (w : World) :
  well_formed execution_mode workflow_id ->
  accessible self agent_id w ->
  exists raw w1,
    dispatched self agent_id message execution_mode workflow_id
      (_get_fallback_model model_name) (Z.max 60 (Z.min 1800 timeout)) w
    = (Ok raw, w1)
    /\ call_agent self agent_id message execution_mode workflow_id
         model_name timeout max_tokens output_mode w
       = process_result self agent_id execution_mode workflow_id
           (_get_fallback_model model_name)
           (effective_output_mode output_mode)
           (Z.max 100 (Z.min 4000 max_tokens)) raw w1.
Proof.
  intros Hwf Ha.
  destruct (call_agent_cases self agent_id message execution_mode workflow_id
              model_name timeout max_tokens output_mode w)
    as [(s & w' & _ & H)|(_ & _ & H)]; [|exact H].
  exfalso. destruct (H Hwf Ha) as [[]|[e He]].
  destruct (dispatched_total self agent_id message execution_mode workflow_id
              (_get_fallback_model model_name)
              (Z.max 60 (Z.min 1800 timeout)) w) as (raw & w1 & E).
  congruence.
Qed.

(** What a finished run with an assistant message reads as. *)
Lemma completed_run_result (self : Env) (agent_run_id thread : nat)
  (timeout : Z) (w : World) (r : AgentRun) (rs : list AgentRun)
  (m : Message) (ms : list Message) :
  filter (fun r => Nat.eqb (run_id r) agent_run_id) (agent_runs w) = r :: rs ->
  run_status r = status_completed ->
  rev (filter (fun m => Nat.eqb (msg_thread_id m) thread
                        && PyStr.eqb (msg_type m) (py "assistant"))
              (messages w)) = m :: ms ->
  (len (message_text (msg_content m)) <= 2000)%Z ->
  _get_agent_execution_result self agent_run_id thread timeout w
  = (Ok (py "Agent execution completed successfully:" ++ [newline; newline]
         ++ message_text (msg_content m)), w).
Proof.
  intros Hr Hs Hm Hl.
  unfold _get_agent_execution_result, try_except, bind, get.
  cbv beta iota. rewrite Hr, Hs. cbn [negb].
  change (PyStr.eqb status_completed status_failed) with false.
  rewrite eqb_refl. cbn [negb]. cbv beta iota. rewrite Hm.
  destruct (Z.ltb_spec 2000 (len (message_text (msg_content m)))); [lia|].
  reflexivity.
Qed.



(** ** Inactive workflows *)

Lemma execute_workflow_inactive (self : Env) (agent_id workflow_id message
  model_name : str) (timeout : Z) (w : World) (workflow : Workflow)
  (others : list Workflow) :
  filter (fun wf => PyStr.eqb (wf_id wf) workflow_id
                    && PyStr.eqb (wf_agent_id wf) agent_id)
         (agent_workflows w) = workflow :: others ->
  wf_status workflow <> py "active" ->
  _execute_agent_workflow self agent_id workflow_id message model_name
    timeout w
  = (Ok (py "Error: Workflow " ++ wf_name workflow
         ++ py " is not active (status: " ++ wf_status workflow ++ py ")"),
     w).
Proof.
  intros Hf Hs. apply eqb_neq in Hs.
  unfold _execute_agent_workflow, try_except, bind, get.
  cbv beta iota. rewrite Hf, Hs. reflexivity.
Qed.

(** C4: a workflow-mode call whose workflow exists for the agent but is
    not active fails without creating a thread, a message or a run and
    without starting a task; for an authorised caller the failure carries
    the inactive-workflow error. *)
Theorem inactive_workflow_fails_fast (self : Env) (agent_id message
  workflow_id : str) (model_name : option str) (timeout max_tokens : Z)
  (output_mode : str) (w : World) (workflow : Workflow)
  (others : list Workflow) :
  workflow_id <> [] ->
  filter (fun wf => PyStr.eqb (wf_id wf) workflow_id
                    && PyStr.eqb (wf_agent_id wf) agent_id)
         (agent_workflows w) = workflow :: others ->
  wf_status workflow <> py "active" ->
  exists res w',
    call_agent self agent_id message mode_workflow (Some workflow_id)
      model_name timeout max_tokens output_mode w = (Ok res, w')
    /\ success res = false
    /\ threads w' = threads w /\ messages w' = messages w
    /\ agent_runs w' = agent_runs w /\ events w' = events w
    /\ (accessible self agent_id w ->
        exists d, output res = Data d /\ resp_status d = status_failed
          /\ resp_result d
             = py "Error: Workflow " ++ wf_name workflow
               ++ py " is not active (status: " ++ wf_status workflow
               ++ py ")")
    /\ (~ accessible self agent_id w ->
        output res
        = Text (py "Error calling agent: Agent not found or access denied"))
    /\ (forall model t,
          _execute_agent_workflow self agent_id workflow_id message model t w
          = (Ok (py "Error: Workflow " ++ wf_name workflow
                 ++ py " is not active (status: " ++ wf_status workflow
                 ++ py ")"), w)).
Proof.
  intros Hid Hf Hs.
  assert (Hfun : forall model t,
            _execute_agent_workflow self agent_id workflow_id message model t w
            = (Ok (py "Error: Workflow " ++ wf_name workflow
                   ++ py " is not active (status: " ++ wf_status workflow
                   ++ py ")"), w))
    by (intros; now apply execute_workflow_inactive with (others := others)).
  assert (Hwf : well_formed mode_workflow (Some workflow_id)).
  { split; [reflexivity|]. intros _. now destruct workflow_id. }
  destruct (verify_agent_access_spec self agent_id w) as [[Ha _]|[Hna _]].
  - destruct (call_agent_authorised self agent_id message mode_workflow
                (Some workflow_id) model_name timeout max_tokens output_mode
                w Hwf Ha) as (raw & w1 & Ed & Ec).
    unfold dispatched in Ed. rewrite eqb_refl in Ed. cbn [or_default] in Ed.
    rewrite (execute_workflow_inactive self agent_id workflow_id message _ _
               w workflow others Hf Hs) in Ed.
    set (msg := py "Error: Workflow " ++ wf_name workflow
                ++ py " is not active (status: " ++ wf_status workflow
                ++ py ")") in *.
    assert (Eraw : raw = msg) by congruence.
    assert (Ew : w1 = w) by congruence.
    subst raw w1. clear Ed.
    assert (Hc : contains (py "Error:") msg = true) by reflexivity.
    destruct (process_result_error self agent_id mode_workflow
                (Some workflow_id) (_get_fallback_model model_name)
                (effective_output_mode output_mode)
                (Z.max 100 (Z.min 4000 max_tokens)) msg w Hc)
      as (d & E & Hst & Hr & _).
    rewrite E in Ec.
    exists (fail_response (Data d)), (set_ticks (S (ticks w)) w).
    split; [exact Ec|]. repeat split; try exact Hfun.
    + intros _. exists d. now repeat split.
    + intros Hna. contradiction.
  - exists (fail_response
              (Text (py "Error calling agent: Agent not found or access denied"))),
      w.
    split; [now apply call_agent_denied|]. repeat split;
      try exact Hfun.
    intros Ha. contradiction.
Qed.

Lemma inactive_workflow_fails_fast_witness :
  exists res w',
    call_agent Scenario.bare (py "A1") (py "ping") mode_workflow
      (Some (py "W1")) None 300 1000 out_last_message Scenario.w0
    = (Ok res, w')
    /\ success res = false
    /\ threads w' = [] /\ messages w' = [] /\ agent_runs w' = [].
Proof.
  destruct (inactive_workflow_fails_fast Scenario.bare (py "A1") (py "ping")
              (py "W1") None 300 1000 out_last_message Scenario.w0
              Scenario.wf_inactive [])
    as (res & w' & E & Hs & Ht & Hm & Hr & _).
  - discriminate.
  - reflexivity.
  - discriminate.
  - exists res, w'. repeat split; assumption.
Defined.

(** ** Clamping *)

(** C3: the timeout and token budget a call works with are the requested
    values clamped into [60, 1800] and [100, 4000]: the call behaves as the
    call with the clamped values, a well-formed authorised call runs the
    execution with the clamped timeout and answers from its result, and
    every structured response echoes the clamped budget; no answer is an
    error about the range. *)
Theorem call_agent_clamps_timeout_and_max_tokens (self : Env)
  (agent_id message execution_mode : str)
  (workflow_id model_name : option str) (timeout max_tokens : Z)
  (output_mode : str) (w : World) :
  let t := Z.max 60 (Z.min 1800 timeout) in
  let mt := Z.max 100 (Z.min 4000 max_tokens) in
  ((timeout < 60 -> t = 60) /\ (1800 < timeout -> t = 1800)
   /\ (60 <= timeout <= 1800 -> t = timeout))%Z
  /\ ((max_tokens < 100 -> mt = 100) /\ (4000 < max_tokens -> mt = 4000)
      /\ (100 <= max_tokens <= 4000 -> mt = max_tokens))%Z
  /\ call_agent self agent_id message execution_mode workflow_id model_name
       timeout max_tokens output_mode w
     = call_agent self agent_id message execution_mode workflow_id model_name
         t mt output_mode w
  /\ (well_formed execution_mode workflow_id ->
      accessible self agent_id w ->
      exists raw w1,
        dispatched self agent_id message execution_mode workflow_id
          (_get_fallback_model model_name) t w = (Ok raw, w1)
        /\ call_agent self agent_id message execution_mode workflow_id
             model_name timeout max_tokens output_mode w
           = process_result self agent_id execution_mode workflow_id
               (_get_fallback_model model_name)
               (effective_output_mode output_mode) mt raw w1)
  /\ (forall res w' d,
        call_agent self agent_id message execution_mode workflow_id
          model_name timeout max_tokens output_mode w = (Ok res, w') ->
        output res = Data d -> resp_max_tokens d = mt).
Proof.
  intros t mt.
  split; [subst t; lia|]. split; [subst mt; lia|].
  split.
  { unfold call_agent.
    replace (Z.max 60 (Z.min 1800 t)) with t by (subst t; lia).
    replace (Z.max 100 (Z.min 4000 mt)) with mt by (subst mt; lia).
    reflexivity. }
  split; [apply call_agent_authorised|].
  intros res w' d E Hd.
  destruct (call_agent_cases self agent_id message execution_mode workflow_id
              model_name timeout max_tokens output_mode w)
    as [(s & w2 & E2 & _)|(_ & _ & raw & w1 & _ & E2)].
  - rewrite E2 in E. injection E as <- _. discriminate Hd.
  - rewrite E2 in E.
    destruct (process_result_total self agent_id execution_mode workflow_id
                (_get_fallback_model model_name)
                (effective_output_mode output_mode) mt raw w1)
      as (d' & Ep & Hm).
    fold mt in E. rewrite Ep in E. injection E as <- _.
    cbn in Hd. injection Hd as <-. exact Hm.
Qed.

(** A timeout of 5 seconds is raised to 60, a budget of 9000 tokens is
    lowered to 4000. *)
Lemma call_agent_clamps_timeout_and_max_tokens_witness :
  Z.max 60 (Z.min 1800 5) = 60%Z
  /\ Z.max 100 (Z.min 4000 9000) = 4000%Z
  /\ exists raw w1,
       dispatched (Scenario.with_runtime Scenario.hung_runtime)
         (py "A1") (py "ping") mode_prompt None fallback_model 60 Scenario.w0
       = (Ok raw, w1)
       /\ raw = timeout_result 60.
Proof.
  destruct (call_agent_clamps_timeout_and_max_tokens
              (Scenario.with_runtime Scenario.hung_runtime)
              (py "A1") (py "ping") mode_prompt None None 5 9000
              out_last_message Scenario.w0)
    as ((Ht & _) & (_ & Hm & _) & _ & Hrun & _).
  split; [apply Ht; lia|]. split; [apply Hm; lia|].
  destruct Hrun as (raw & w1 & Ed & _).
  - split; [reflexivity | intros H; discriminate H].
  - exists Scenario.agent_A1. repeat split. now left.
  - exists raw, w1. split; [exact Ed|].
    vm_compute in Ed. injection Ed as <- _. reflexivity.
Defined.

(** ** A complete delegation *)

(** A request with a timeout of 5 seconds runs with 60; the runtime
    answers in time and last-message extraction keeps the final line. *)
Example delegated_ping_pong :
  let self := Scenario.with_runtime
                (Scenario.answering_runtime (py "...
Done: pong")) in
  let r := call_agent self (py "A1") (py "ping") mode_prompt None None 5 1000
             out_last_message Scenario.w0 in
  exists d,
    fst r = Ok (success_response (Data d))
    /\ resp_status d = status_completed
    /\ contains (py "Done: pong") (resp_result d) = true
    /\ map (fun t => tm_timeout (thread_metadata t)) (threads (snd r))
       = [60%Z]
    /\ map run_status (agent_runs (snd r)) = [status_completed].
Proof. vm_compute. eexists. repeat split. Qed.

(** * Further properties of the tool *)

(** ** Requests that are turned away *)

(** X1: [call_agent] lets no exception of class Exception escape:
    whether the access check, the workflow engine and the runtime return,
    miss the deadline or raise such an exception, the answer is a tool
    result.  Exceptions outside that class (a cancellation of the calling
    task, a keyboard interrupt) are not caught by the code and are not part
    of [Exn]. *)
Theorem call_agent_never_raises (self : Env)
  (agent_id message execution_mode : str)
  (workflow_id model_name : option str) (timeout max_tokens : Z)
  (output_mode : str) (w : World) :
  exists res w',
    call_agent self agent_id message execution_mode workflow_id model_name
      timeout max_tokens output_mode w = (Ok res, w').
Proof.
  destruct (call_agent_cases self agent_id message execution_mode workflow_id
              model_name timeout max_tokens output_mode w)
    as [(s & w' & E & _)|(_ & _ & raw & w1 & _ & E)].
  - eauto.
  - destruct (process_result_total self agent_id execution_mode workflow_id
                (_get_fallback_model model_name)
                (effective_output_mode output_mode)
                (Z.max 100 (Z.min 4000 max_tokens)) raw w1) as (d & Ep & _).
    rewrite E, Ep. eauto.
Qed.

(** X2: an execution mode other than prompt or workflow, and workflow
    mode without a workflow id (absent or empty), are refused with a fixed
    text and leave the store, the clock and the task log untouched. *)
Theorem invalid_request_rejected (self : Env)
  (agent_id message execution_mode : str)
  (workflow_id model_name : option str) (timeout max_tokens : Z)
  (output_mode : str) (w : World) :
  (member execution_mode [mode_prompt; mode_workflow] = false ->
   call_agent self agent_id message execution_mode workflow_id model_name
     timeout max_tokens output_mode w
   = (Ok (fail_response (Text (py
        "Error: execution_mode must be either 'prompt' or 'workflow'"))), w))
  /\
  (execution_mode = mode_workflow -> truthy workflow_id = false ->
   call_agent self agent_id message execution_mode workflow_id model_name
     timeout max_tokens output_mode w
   = (Ok (fail_response (Text (py
        "Error: workflow_id is required when execution_mode is 'workflow'"))),
      w)).
Proof.
  split.
  - intros H. unfold call_agent. rewrite H. reflexivity.
  - intros -> H. unfold call_agent. rewrite H. reflexivity.
Qed.

Lemma invalid_request_rejected_witness :
  call_agent Scenario.bare (py "A1") (py "ping") (py "batch") None None
    300 1000 out_last_message Scenario.w0
  = (Ok (fail_response (Text (py
       "Error: execution_mode must be either 'prompt' or 'workflow'"))),
     Scenario.w0)
  /\ call_agent Scenario.bare (py "A1") (py "ping") mode_workflow (Some [])
       None 300 1000 out_last_message Scenario.w0
     = (Ok (fail_response (Text (py
          "Error: workflow_id is required when execution_mode is 'workflow'"))),
        Scenario.w0).
Proof.
  split.
  - apply (proj1 (invalid_request_rejected Scenario.bare (py "A1") (py "ping")
                    (py "batch") None None 300 1000 out_last_message
                    Scenario.w0)).
    reflexivity.
  - apply (proj2 (invalid_request_rejected Scenario.bare (py "A1") (py "ping")
                    mode_workflow (Some []) None 300 1000 out_last_message
                    Scenario.w0)); reflexivity.
Defined.

(** X3: the access check passes exactly when the agents table has a row
    with that id owned by the caller's account; it never writes.  A
    well-formed call that fails the check is answered with the denial text
    and nothing is created. *)
Theorem access_check_spec (self : Env) (agent_id : str) (w : World) :
  (accessible self agent_id w ->
   _verify_agent_access self agent_id w = (Ok tt, w))
  /\ (~ accessible self agent_id w ->
      _verify_agent_access self agent_id w
      = (Raise (ValueError (py "Agent not found or access denied")), w))
  /\ (forall message execution_mode workflow_id model_name timeout max_tokens
             output_mode,
        well_formed execution_mode workflow_id ->
        ~ accessible self agent_id w ->
        call_agent self agent_id message execution_mode workflow_id
          model_name timeout max_tokens output_mode w
        = (Ok (fail_response (Text (py
             "Error calling agent: Agent not found or access denied"))), w)).
Proof.
  destruct (verify_agent_access_spec self agent_id w) as [[Ha E]|[Hna E]].
  - split; [intros _; exact E|]. split; [intros H; contradiction|].
    intros. contradiction.
  - split; [intros H; contradiction|]. split; [intros _; exact E|].
    intros. now apply call_agent_denied.
Qed.

Lemma access_check_spec_witness :
  _verify_agent_access Scenario.bare (py "A1") Scenario.w0
  = (Ok tt, Scenario.w0)
  /\ _verify_agent_access Scenario.bare (py "A2") Scenario.w0
     = (Raise (ValueError (py "Agent not found or access denied")),
        Scenario.w0).
Proof.
  split.
  - apply (proj1 (access_check_spec Scenario.bare (py "A1") Scenario.w0)).
    exists Scenario.agent_A1. repeat split. now left.
  - apply (proj1 (proj2 (access_check_spec Scenario.bare (py "A2")
                           Scenario.w0))).
    intros (a & [<-|[]] & H & _). discriminate H.
Defined.

(** X4: an output mode that is neither last_message nor full is
    replaced by last_message before anything else happens: the call is
    the call with last_message. *)
Theorem unknown_output_mode_defaults (self : Env)
  (agent_id message execution_mode : str)
  (workflow_id model_name : option str) (timeout max_tokens : Z)
  (output_mode : str) (w : World) :
  member output_mode [out_last_message; out_full] = false ->
  call_agent self agent_id message execution_mode workflow_id model_name
    timeout max_tokens output_mode w
  = call_agent self agent_id message execution_mode workflow_id model_name
      timeout max_tokens out_last_message w.
Proof.
  intros H. unfold call_agent. rewrite H.
  change (member out_last_message [out_last_message; out_full]) with true.
  reflexivity.
Qed.

Lemma unknown_output_mode_defaults_witness :
  call_agent Scenario.bare (py "A1") (py "ping") mode_prompt None None
    300 1000 (py "summary") Scenario.w0
  = call_agent Scenario.bare (py "A1") (py "ping") mode_prompt None None
      300 1000 out_last_message Scenario.w0.
Proof. apply unknown_output_mode_defaults. reflexivity. Defined.

(** ** Reading a finished run *)

Lemma filter_last_match {A} (p : A -> bool) (pre post : list A) (m : A) :
  p m = true -> filter p post = [] ->
  rev (filter p (pre ++ m :: post)) = m :: rev (filter p pre).
Proof.
  intros Hm Hpost. rewrite filter_app. cbn [filter]. rewrite Hm, Hpost.
  rewrite rev_app_distr. reflexivity.
Qed.

Lemma contains_skip (x : ascii) (sub p s : str) :
  forallb (fun c => negb (Ascii.eqb x c)) p = true ->
  contains (x :: sub) (p ++ s) = contains (x :: sub) s.
Proof.
  induction p as [|c p IH]; [reflexivity|].
  cbn [forallb]. intros H. apply andb_true_iff in H as [Hc Hp].
  cbn [app]. rewrite contains_unfold. cbn [startswith].
  apply negb_true_iff in Hc. rewrite Hc. cbn [andb orb]. now apply IH.
Qed.

(** X5: reading the result of a run never writes to the store and
    never raises, also when it is used on a run that does not exist. *)
Theorem get_result_reads_only (self : Env) (agent_run_id thread : nat)
  (timeout : Z) (w : World) :
  (exists text,
     _get_agent_execution_result self agent_run_id thread timeout w
     = (Ok text, w))
  /\ (~ In agent_run_id (map run_id (agent_runs w)) ->
      _get_agent_execution_result self agent_run_id thread timeout w
      = (Ok (py "Error: Could not find agent run record"), w)).
Proof.
  split; [apply get_result_total|].
  intros Hn.
  unfold _get_agent_execution_result, try_except, bind, get, ret.
  cbv beta iota.
  destruct (filter _ (agent_runs w)) as [|r rs] eqn:E; [reflexivity|].
  exfalso. apply Hn.
  assert (Hin : In r (filter (fun r => Nat.eqb (run_id r) agent_run_id)
                             (agent_runs w))) by (rewrite E; now left).
  apply filter_In in Hin as [Hin Hid]. apply Nat.eqb_eq in Hid.
  rewrite <- Hid. now apply in_map.
Qed.

Lemma get_result_reads_only_witness :
  _get_agent_execution_result Scenario.bare 9 0 10 Scenario.w_running
  = (Ok (py "Error: Could not find agent run record"), Scenario.w_running).
Proof.
  apply (proj2 (get_result_reads_only Scenario.bare 9 0 10
                  Scenario.w_running)).
  vm_compute. intros [H|[]]. discriminate H.
Defined.

(** X6: what is read depends on the status of the first row with that
    id: no row gives an error text, [failed] gives the recorded error
    (the text None when there is none), any status other than [completed]
    is reported as incomplete, and a completed run without an assistant
    message in its thread gives an explanatory text. *)
Theorem result_by_status (self : Env) (agent_run_id thread : nat)
  (timeout : Z) (w : World) :
  let rows := filter (fun r => Nat.eqb (run_id r) agent_run_id)
                     (agent_runs w) in
  let replies := filter (fun m => Nat.eqb (msg_thread_id m) thread
                                  && PyStr.eqb (msg_type m) (py "assistant"))
                        (messages w) in
  let result := fst (_get_agent_execution_result self agent_run_id thread
                       timeout w) in
  (rows = [] -> result = Ok (py "Error: Could not find agent run record"))
  /\ (forall r rs, rows = r :: rs ->
        (run_status r = status_failed ->
         result = Ok (py "Agent execution failed: "
                      ++ or_default (error_message r) (py "None")))
        /\ (run_status r <> status_failed ->
            run_status r <> status_completed ->
            result = Ok (py "Agent execution incomplete (status: "
                         ++ run_status r ++ py ")"))
        /\ (run_status r = status_completed -> replies = [] ->
            result = Ok (py "Agent completed but no response messages found"))).
Proof.
  intros rows replies result. subst result.
  unfold _get_agent_execution_result, try_except, bind, get, ret.
  cbv beta iota. fold rows. split.
  - intros ->. reflexivity.
  - intros r rs ->. split; [|split].
    + intros ->. reflexivity.
    + intros Hf Hc. apply eqb_neq in Hf, Hc. rewrite Hf, Hc. reflexivity.
    + intros -> Hr. change (PyStr.eqb status_completed status_failed)
        with false. rewrite eqb_refl. cbn [negb]. cbv beta iota.
      fold replies. rewrite Hr. reflexivity.
Qed.

Lemma result_by_status_witness :
  fst (_get_agent_execution_result Scenario.bare 2 0 10 Scenario.w_running)
  = Ok (py "Agent execution incomplete (status: running)").
Proof.
  destruct (result_by_status Scenario.bare 2 0 10 Scenario.w_running)
    as [_ H].
  destruct (H (new_run (py "A1") fallback_model 300 None 2 0 1000%Z) [])
    as (_ & Hinc & _); [reflexivity|].
  apply Hinc; discriminate.
Defined.

Lemma completed_text_len (text : str) :
  (len (completed_text text) <= 41 + 2000)%Z
  /\ ((len text <= 2000)%Z ->
      completed_text text
      = py "Agent execution completed successfully:" ++ [newline; newline]
        ++ text)
  /\ ((2000 < len text)%Z ->
      completed_text text
      = py "Agent execution completed successfully:" ++ [newline; newline]
        ++ firstn 1900 text ++ brevity_marker).
Proof.
  unfold completed_text.
  destruct (Z.ltb_spec 2000 (len text)) as [Hl|Hs].
  - assert (Hs : slice_to text 1900 = firstn 1900 text).
    { unfold slice_to. cbn [Z.ltb Z.compare]. f_equal. lia. }
    rewrite Hs. split; [|split; [lia | reflexivity]].
    rewrite !len_app.
    change (len (py "Agent execution completed successfully:")) with 39%Z.
    change (len [newline; newline]) with 2%Z.
    change (len brevity_marker) with 42%Z.
    unfold len at 1. rewrite length_firstn. lia.
  - split; [|split; [reflexivity | lia]].
    rewrite !len_app.
    change (len (py "Agent execution completed successfully:")) with 39%Z.
    change (len [newline; newline]) with 2%Z. lia.
Qed.

(** X7: for a completed run the answer is built from the last assistant
    message of the run's thread, whatever follows it in other threads or
    from other roles; a text of more than 2000 characters is cut to its
    first 1900 characters and a marker, so the answer never exceeds 2041
    characters. *)
Theorem completed_run_reads_last_reply (self : Env)
  (agent_run_id thread : nat) (timeout : Z) (w : World)
  (r : AgentRun) (rs : list AgentRun) (pre post : list Message)
  (m : Message) :
  filter (fun r => Nat.eqb (run_id r) agent_run_id) (agent_runs w) = r :: rs ->
  run_status r = status_completed ->
  messages w = pre ++ m :: post ->
  msg_thread_id m = thread -> msg_type m = py "assistant" ->
  (forall m', In m' post ->
     msg_thread_id m' <> thread \/ msg_type m' <> py "assistant") ->
  let text := message_text (msg_content m) in
  _get_agent_execution_result self agent_run_id thread timeout w
  = (Ok (completed_text text), w)
  /\ (len (completed_text text) <= 2041)%Z
  /\ ((len text <= 2000)%Z ->
      completed_text text
      = py "Agent execution completed successfully:" ++ [newline; newline]
        ++ text)
  /\ ((2000 < len text)%Z ->
      completed_text text
      = py "Agent execution completed successfully:" ++ [newline; newline]
        ++ firstn 1900 text ++ brevity_marker).
Proof.
  intros Hr Hs Hm Ht Hty Hpost text.
  destruct (completed_text_len text) as (Hlen & Hshort & Hlong).
  split; [|split; [lia | split; assumption]].
  unfold _get_agent_execution_result, try_except, bind, get, ret.
  cbv beta iota. rewrite Hr, Hs.
  change (PyStr.eqb status_completed status_failed) with false.
  rewrite eqb_refl. cbn [negb]. cbv beta iota. rewrite Hm.
  rewrite filter_last_match.
  - reflexivity.
  - rewrite Ht, Hty, Nat.eqb_refl, eqb_refl. reflexivity.
  - clear - Hpost. induction post as [|x post IH]; [reflexivity|].
    cbn [filter].
    destruct (Hpost x (or_introl eq_refl)) as [H|H].
    + apply Nat.eqb_neq in H. rewrite H. cbn [andb].
      apply IH. intros m' Hin. apply Hpost. now right.
    + apply eqb_neq in H. rewrite H, andb_false_r.
      apply IH. intros m' Hin. apply Hpost. now right.
Qed.

Lemma completed_run_reads_last_reply_witness :
  _get_agent_execution_result Scenario.bare 2 0 10 Cases.w_answered
  = (Ok (py "Agent execution completed successfully:" ++ [newline; newline]
         ++ py "...
Done: pong"), Cases.w_answered).
Proof.
  apply (completed_run_reads_last_reply Scenario.bare 2 0 10 Cases.w_answered
           (nth 0 (agent_runs Cases.w_answered)
                (Scenario.mk_run 0 None [] 0%Z))
           []
           (firstn 1 (messages Cases.w_answered))
           []
           (nth 1 (messages Cases.w_answered) Cases.no_message)).
  - reflexivity.
  - reflexivity.
  - reflexivity.
  - reflexivity.
  - reflexivity.
  - intros m' [].
Defined.

Lemma error_marker_after_prefix (p s : str) :
  forallb (fun c => negb (Ascii.eqb "E"%char c)) p = true ->
  contains (py "Error:") (p ++ s) = contains (py "Error:") s.
Proof. apply (contains_skip "E"%char (py "rror:")). Qed.

(** X8: a run that the runtime itself recorded as failed is read back as
    "Agent execution failed: ..."; unless the recorded error contains
    "Error:", [call_agent] turns that text into a successful response with
    status completed. *)
Theorem failed_run_is_reported_completed (self : Env)
  (task : World -> TaskOutcome) (agent_run_id thread : nat) (timeout : Z)
  (w w' : World) (r : AgentRun) (rs : list AgentRun) (error : str)
  (agent_id execution_mode : str) (workflow_id : option str)
  (model_name output_mode : str) (max_tokens : Z) :
  task w = TaskReturned w' ->
  filter (fun r => Nat.eqb (run_id r) agent_run_id) (agent_runs w') = r :: rs ->
  run_status r = status_failed ->
  error_message r = Some error ->
  contains (py "Error:") error = false ->
  await_completion self task agent_run_id thread timeout w
  = (Ok (py "Agent execution failed: " ++ error), w')
  /\ exists d,
       process_result self agent_id execution_mode workflow_id model_name
         output_mode max_tokens (py "Agent execution failed: " ++ error) w'
       = (Ok (success_response (Data d)), set_ticks (S (ticks w')) w')
       /\ resp_status d = status_completed.
Proof.
  intros Htask Hr Hs He Hc. split.
  - unfold await_completion.
    assert (Hw : wait_for task w = (Ok tt, w'))
      by (unfold wait_for; now rewrite Htask).
    erewrite try_bind_ok by exact Hw.
    apply try_ok.
    unfold _get_agent_execution_result, try_except, bind, get, ret.
    cbv beta iota. rewrite Hr, Hs, He. reflexivity.
  - assert (Hraw : contains (py "Error:")
                     (py "Agent execution failed: " ++ error) = false).
    { rewrite error_marker_after_prefix; [exact Hc | reflexivity]. }
    destruct (process_result_ok self agent_id execution_mode workflow_id
                model_name output_mode max_tokens
                (py "Agent execution failed: " ++ error) w' Hraw)
      as (d & E & Hst & _).
    exists d. now split.
Qed.

Lemma failed_run_is_reported_completed_witness :
  let task := Cases.failing_runtime (py "quota exceeded")
                (request_args Scenario.bare fallback_model Scenario.agent_A1
                   Scenario.w0) 300 in
  exists w',
    await_completion Scenario.bare task 2 0 300 Scenario.w_running
    = (Ok (py "Agent execution failed: quota exceeded"), w')
    /\ Scenario.run_summary 2 w'
       = Some (status_failed, Some (py "quota exceeded"), Some 1001%Z).
Proof.
  intros task.
  destruct (failed_run_is_reported_completed Scenario.bare task 2 0 300
              Scenario.w_running
              (snd (wait_for task Scenario.w_running))
              (mark_failed (py "quota exceeded") 1001%Z
                 (new_run (py "A1") fallback_model 300 None 2 0 1000%Z))
              [] (py "quota exceeded")
              (py "A1") mode_prompt None fallback_model out_last_message 1000)
    as [E _]; try reflexivity.
  eexists. split; [exact E | reflexivity].
Defined.

(** ** Building the request and supervising the run *)

Lemma await_completion_outcome (self : Env) (task : World -> TaskOutcome)
  (agent_run_id thread : nat) (timeout : Z) (w : World) :
  await_completion self task agent_run_id thread timeout w
  = match task w with
    | TaskReturned w2 | TaskTimedOut w2 false =>
        _get_agent_execution_result self agent_run_id thread 10 w2
    | TaskTimedOut w2 true | TaskRaised TimeoutError w2 =>
        (Ok (timeout_result timeout), finalised self agent_run_id w2)
    | TaskRaised e w2 => (Raise e, w2)
    end.
Proof.
  unfold await_completion, try_except, bind, wait_for.
  destruct (task w) as [w2|e w2|w2 [|]].
  - destruct (get_result_total self agent_run_id thread 10 w2) as (s & E).
    now rewrite E.
  - destruct e; reflexivity.
  - reflexivity.
  - destruct (get_result_total self agent_run_id thread 10 w2) as (s & E).
    now rewrite E.
Qed.

(** How a thread-backed execution ends, by what is installed and by how
    the runtime task ends. *)
Lemma with_thread_outcome (self : Env) (agent_id message model_name : str)
  (timeout : Z) (workflow : option Workflow) (w : World) :
  _execute_agent_with_thread self agent_id message model_name timeout
    workflow w
  = match run_agent_background self with
    | None =>
        (Ok (py "Error: Agent execution service unavailable"),
         built self agent_id message model_name timeout workflow w)
    | Some rt =>
        match filter (fun a => PyStr.eqb (agent_id_of a) agent_id)
                     (agents w) with
        | [] =>
            (Ok (py "Error: Agent " ++ agent_id ++ py " not found"),
             built self agent_id message model_name timeout workflow w)
        | a :: _ =>
            match rt (request_args self model_name a w) timeout
                     (started self agent_id message model_name timeout
                        workflow w) with
            | TaskReturned w2 | TaskTimedOut w2 false =>
                _get_agent_execution_result self (S (S (next_id w)))
                  (next_id w) 10 w2
            | TaskTimedOut w2 true | TaskRaised TimeoutError w2 =>
                (Ok (timeout_result timeout),
                 finalised self (S (S (next_id w))) w2)
            | TaskRaised (ImportError _) w2 =>
                (Ok (py "Error: Agent execution service unavailable"), w2)
            | TaskRaised e w2 =>
                (Ok (py "Error executing agent: " ++ exn_str e), w2)
            end
        end
    end.
Proof.
  unfold _execute_agent_with_thread.
  unfold try_except at 1.
  unfold bind at 1, fresh at 1. cbv beta iota.
  unfold bind at 1, modify at 1. cbv beta iota.
  unfold bind at 1, fresh at 1. cbv beta iota.
  unfold bind at 1, modify at 1. cbv beta iota.
  unfold bind at 1, now at 1. cbv beta iota.
  unfold bind at 1, fresh at 1. cbv beta iota.
  unfold bind at 1, modify at 1. cbv beta iota.
  cbn [agents agent_versions agent_workflows threads messages agent_runs
       next_id ticks events set_threads set_messages set_agent_runs
       set_next_id set_ticks set_events].
  destruct (run_agent_background self) as [rt|]; [|reflexivity].
  unfold try_except, bind, get, emit, modify, ret, raise, except_Exception.
  cbv beta iota.
  cbn [agents agent_versions agent_workflows threads messages agent_runs
       next_id ticks events set_threads set_messages set_agent_runs
       set_next_id set_ticks set_events].
  destruct (filter (fun a => PyStr.eqb (agent_id_of a) agent_id) (agents w))
    as [|a rest]; [reflexivity|].
  unfold request_args.
  destruct (truthy (current_version_id a)); cbv beta iota;
    cbn [agents agent_versions agent_workflows threads messages agent_runs
         next_id ticks events set_threads set_messages set_agent_runs
         set_next_id set_ticks set_events];
    rewrite await_completion_outcome;
    (lazymatch goal with
     | |- ?L = ?R =>
         match R with
         | context [rt ?a timeout ?w1] =>
             match L with
             | context [rt ?a' timeout ?w1'] =>
                 change a' with a; change w1' with w1
             end
         end
     end);
    (match goal with
     | |- context [rt ?a timeout ?w1] =>
         destruct (rt a timeout w1) as [w2|e w2|w2 [|]]
     end);
    try (destruct (get_result_total self (S (S (next_id w))) (next_id w) 10
                     w2) as (s & E); now rewrite E);
    try reflexivity;
    destruct e; reflexivity.
Qed.

Lemma error_text_is_error (rest : str) :
  contains (py "Error:") (py "Error:" ++ rest) = true.
Proof. apply contains_here. Qed.

(** X9: when the runtime module is not installed, or the agents table has
    no row for the agent, the request has already been built: the answer is
    an error text, and the store holds one more thread, its seed message and
    one more run, still running and without completion time; no task was
    started. *)
Theorem builder_leaves_partial_records (self : Env)
  (agent_id message model_name : str) (timeout : Z)
  (workflow : option Workflow) (w : World) :
  run_agent_background self = None
  \/ filter (fun a => PyStr.eqb (agent_id_of a) agent_id) (agents w) = [] ->
  let w' := built self agent_id message model_name timeout workflow w in
  exists text,
    _execute_agent_with_thread self agent_id message model_name timeout
      workflow w = (Ok text, w')
    /\ contains (py "Error:") text = true
    /\ threads w' = threads w ++ [seed_thread self timeout workflow (next_id w)]
    /\ messages w'
       = messages w
         ++ [seed_message agent_id message workflow (S (next_id w)) (next_id w)]
    /\ (exists r,
          agent_runs w' = agent_runs w ++ [r]
          /\ run_status r = status_running /\ completed_at r = None
          /\ run_thread_id r = next_id w
          /\ rm_timeout (run_metadata r) = timeout)
    /\ events w' = events w.
Proof.
  intros H w'. rewrite with_thread_outcome. fold w'.
  assert (Hfacts :
    threads w' = threads w ++ [seed_thread self timeout workflow (next_id w)]
    /\ messages w'
       = messages w
         ++ [seed_message agent_id message workflow (S (next_id w)) (next_id w)]
    /\ (exists r,
          agent_runs w' = agent_runs w ++ [r]
          /\ run_status r = status_running /\ completed_at r = None
          /\ run_thread_id r = next_id w
          /\ rm_timeout (run_metadata r) = timeout)
    /\ events w' = events w).
  { repeat split. eexists. repeat split. }
  destruct (run_agent_background self) as [rt|].
  - destruct H as [H|H]; [discriminate H|]. rewrite H.
    eexists. split; [reflexivity|]. split; [|exact Hfacts].
    apply (error_text_is_error (py " Agent " ++ agent_id ++ py " not found")).
  - eexists. split; [reflexivity|]. split; [reflexivity | exact Hfacts].
Qed.

Lemma builder_leaves_partial_records_witness :
  exists text,
    _execute_agent_with_thread Scenario.bare (py "A1") (py "ping")
      fallback_model 300 None Scenario.w0
    = (Ok text, Scenario.w_running)
    /\ contains (py "Error:") text = true.
Proof.
  destruct (builder_leaves_partial_records Scenario.bare (py "A1") (py "ping")
              fallback_model 300 None Scenario.w0)
    as (text & E & Hc & _).
  - left. reflexivity.
  - exists text. split; [|exact Hc]. rewrite E. reflexivity.
Defined.

(** X10: with the runtime installed and the agent row present, a
    thread-backed execution ends by how the task ends.  A task that returns
    in time gives what is read from the run, and the supervisor adds nothing
    to what the task left.  A task that misses the deadline and ends
    cancelled, or that raises a timeout error itself, gives the timeout
    text, with the cancellation logged and the run written as failed.  A
    task that misses the deadline, swallows the cancellation and returns is
    treated as one that returned in time: nothing is logged or written.  A
    task that raises gives an error text and the run is left as the task
    left it; an import error inside the task is answered as an unavailable
    service. *)
Theorem supervised_execution_outcomes (self : Env)
  (agent_id message model_name : str) (timeout : Z)
  (workflow : option Workflow) (w : World)
  (rt : BackgroundArgs -> Z -> World -> TaskOutcome) (a : Agent)
  (rest : list Agent) :
  run_agent_background self = Some rt ->
  filter (fun a => PyStr.eqb (agent_id_of a) agent_id) (agents w) = a :: rest ->
  let run := _execute_agent_with_thread self agent_id message model_name
               timeout workflow w in
  let outcome := rt (request_args self model_name a w) timeout
                   (started self agent_id message model_name timeout
                      workflow w) in
  let rid := S (S (next_id w)) in
  (forall w2, outcome = TaskReturned w2 ->
     run = _get_agent_execution_result self rid (next_id w) 10 w2
     /\ snd run = w2)
  /\ (forall w2,
        outcome = TaskTimedOut w2 true
        \/ outcome = TaskRaised TimeoutError w2 ->
        run = (Ok (timeout_result timeout), finalised self rid w2))
  /\ (forall w2, outcome = TaskTimedOut w2 false ->
        run = _get_agent_execution_result self rid (next_id w) 10 w2
        /\ snd run = w2)
  /\ (forall w2 msg,
        outcome = TaskRaised (OtherError msg) w2
        \/ outcome = TaskRaised (ValueError msg) w2 ->
        run = (Ok (py "Error executing agent: " ++ msg), w2))
  /\ (forall w2 msg, outcome = TaskRaised (ImportError msg) w2 ->
        run = (Ok (py "Error: Agent execution service unavailable"), w2)).
Proof.
  intros Hrt Ha run outcome rid. subst run.
  rewrite with_thread_outcome, Hrt, Ha. fold outcome. fold rid.
  split; [|split; [|split; [|split]]].
  - intros w2 H. rewrite H. split; [reflexivity|].
    destruct (get_result_total self rid (next_id w) 10 w2) as (s & E).
    now rewrite E.
  - intros w2 [H|H]; now rewrite H.
  - intros w2 H. rewrite H. split; [reflexivity|].
    destruct (get_result_total self rid (next_id w) 10 w2) as (s & E).
    now rewrite E.
  - intros w2 msg [H|H]; now rewrite H.
  - intros w2 msg H. now rewrite H.
Qed.

Lemma supervised_execution_outcomes_witness :
  _execute_agent_with_thread (Scenario.with_runtime Scenario.hung_runtime)
    (py "A1") (py "ping") fallback_model 300 None Scenario.w0
  = (Ok (timeout_result 300),
     finalised (Scenario.with_runtime Scenario.hung_runtime) 2
       (started (Scenario.with_runtime Scenario.hung_runtime) (py "A1")
          (py "ping") fallback_model 300 None Scenario.w0)).
Proof.
  destruct (supervised_execution_outcomes
              (Scenario.with_runtime Scenario.hung_runtime)
              (py "A1") (py "ping") fallback_model 300 None Scenario.w0
              Scenario.hung_runtime Scenario.agent_A1 [])
    as (_ & H & _); [reflexivity | reflexivity |].
  apply H. left. reflexivity.
Defined.




(** ** Finalising, once more *)

Lemma cleanup_cases (self : Env) (agent_run_id : nat) (w : World) :
  cleanup_stuck_agent_run self agent_run_id w
  = match filter (fun r => Nat.eqb (run_id r) agent_run_id) (agent_runs w) with
    | [] => (Ok false, w)
    | r :: _ =>
        if terminal r then (Ok true, w)
        else (Ok true,
              set_agent_runs
                (map (fun r => if Nat.eqb (run_id r) agent_run_id
                               then mark_failed
                                      (py "Agent run was stuck and cleaned up")
                                      (clock self (ticks w)) r
                               else r) (agent_runs w))
                (set_ticks (S (ticks w)) w))
    end.
Proof.
  unfold cleanup_stuck_agent_run, try_except, bind, get, terminal.
  cbv beta iota.
  destruct (filter _ (agent_runs w)) as [|r rs]; [reflexivity|].
  destruct (member (run_status r) [status_completed; status_failed]);
    [reflexivity|].
  rewrite mark_failed_run. reflexivity.
Qed.

Lemma filter_id_nil (id : nat) (l : list AgentRun) :
  filter (fun r => Nat.eqb (run_id r) id) l = [] <->
  ~ In id (map run_id l).
Proof.
  split.
  - intros E Hin. apply in_map_iff in Hin as (r & Hid & Hr).
    assert (H : In r (filter (fun r => Nat.eqb (run_id r) id) l)).
    { apply filter_In. split; [exact Hr|]. now apply Nat.eqb_eq. }
    rewrite E in H. contradiction.
  - intros Hn. destruct (filter _ l) as [|r rs] eqn:E; [reflexivity|].
    exfalso. apply Hn.
    assert (H : In r (filter (fun r => Nat.eqb (run_id r) id) l))
      by (rewrite E; now left).
    apply filter_In in H as [Hr Hid]. apply Nat.eqb_eq in Hid.
    rewrite <- Hid. now apply in_map.
Qed.

Lemma filter_map_marked (id : nat) (e : str) (t : Time)
  (l : list AgentRun) :
  filter (fun r => Nat.eqb (run_id r) id)
         (map (fun r => if Nat.eqb (run_id r) id then mark_failed e t r else r)
              l)
  = map (mark_failed e t) (filter (fun r => Nat.eqb (run_id r) id) l).
Proof.
  induction l as [|r l IH]; [reflexivity|].
  cbn [map filter]. destruct (Nat.eqb (run_id r) id) eqn:E.
  - cbn [mark_failed run_id]. rewrite E. cbn [map]. now rewrite IH.
  - rewrite E. exact IH.
Qed.

(** X12: the single-run cleanup answers False, and writes nothing, exactly
    when no run has the id.  Otherwise it answers True, a run that is
    neither completed nor failed is written as failed with the cleanup
    message, runs with other ids are kept as they are, and running the
    cleanup again changes nothing. *)
Theorem cleanup_single_run_spec (self : Env) (agent_run_id : nat)
  (w : World) :
  let res := cleanup_stuck_agent_run self agent_run_id w in
  (~ In agent_run_id (map run_id (agent_runs w)) -> res = (Ok false, w))
  /\ (In agent_run_id (map run_id (agent_runs w)) ->
      fst res = Ok true
      /\ (forall r rs,
            filter (fun r => Nat.eqb (run_id r) agent_run_id) (agent_runs w)
            = r :: rs ->
            terminal r = false ->
            In (mark_failed (py "Agent run was stuck and cleaned up")
                  (clock self (ticks w)) r) (agent_runs (snd res)))
      /\ (forall r, run_id r <> agent_run_id ->
            (In r (agent_runs (snd res)) <-> In r (agent_runs w)))
      /\ threads (snd res) = threads w
      /\ messages (snd res) = messages w
      /\ cleanup_stuck_agent_run self agent_run_id (snd res)
         = (Ok true, snd res)).
Proof.
  intros res. subst res. rewrite cleanup_cases. split.
  - intros Hn. apply filter_id_nil in Hn. now rewrite Hn.
  - intros Hin.
    destruct (filter (fun r => Nat.eqb (run_id r) agent_run_id)
                     (agent_runs w)) as [|r rs] eqn:E.
    { exfalso. apply filter_id_nil in E. contradiction. }
    destruct (terminal r) eqn:Ht.
    + cbn [fst snd]. split; [reflexivity|]. split.
      { intros r' rs' [= <- <-] Hnt. congruence. }
      split; [tauto|]. split; [reflexivity|]. split; [reflexivity|].
      rewrite cleanup_cases, E, Ht. reflexivity.
    + cbn [fst snd]. split; [reflexivity|]. split.
      { intros r' rs' [= <- <-] _.
        cbn [agent_runs set_agent_runs]. apply in_map_iff. exists r.
        assert (Hr : In r (filter (fun r => Nat.eqb (run_id r) agent_run_id)
                                  (agent_runs w))) by (rewrite E; now left).
        apply filter_In in Hr as [Hr Hid]. rewrite Hid. now split. }
      split.
      { intros r' Hid. cbn [agent_runs set_agent_runs]. rewrite in_map_iff.
        apply Nat.eqb_neq in Hid. split.
        - intros (x & Hx & Hin'). destruct (Nat.eqb (run_id x) agent_run_id)
            eqn:Ex.
          + subst r'. cbn [mark_failed run_id] in Hid. congruence.
          + now subst r'.
        - intros Hin'. exists r'. now rewrite Hid. }
      split; [reflexivity|]. split; [reflexivity|].
      rewrite cleanup_cases.
      cbn [agent_runs set_agent_runs]. rewrite filter_map_marked, E.
      cbn [map]. reflexivity.
Qed.

Lemma cleanup_single_run_spec_witness :
  cleanup_stuck_agent_run Scenario.bare 9 Scenario.w_running
  = (Ok false, Scenario.w_running)
  /\ fst (cleanup_stuck_agent_run Scenario.bare 2 Scenario.w_running)
     = Ok true.
Proof.
  split.
  - apply (proj1 (cleanup_single_run_spec Scenario.bare 9 Scenario.w_running)).
    vm_compute. intros [H|[]]. discriminate H.
  - apply (proj2 (cleanup_single_run_spec Scenario.bare 2 Scenario.w_running)).
    vm_compute. now left.
Defined.

(** X13: [_mark_agent_run_as_failed] never raises.  With an id that no run
    has it leaves every run as it is; otherwise each run with the id gets
    status failed, the given error and a completion time, and keeps its id,
    thread, agent, account, start time and metadata; runs with other ids,
    threads and messages are untouched, and no run is added or removed. *)
Theorem mark_failed_frame (self : Env) (agent_run_id : nat) (error : str)
  (w : World) :
  exists w',
    _mark_agent_run_as_failed self agent_run_id error w = (Ok tt, w')
    /\ (~ In agent_run_id (map run_id (agent_runs w)) ->
        agent_runs w' = agent_runs w)
    /\ map run_id (agent_runs w') = map run_id (agent_runs w)
    /\ Forall2 (fun r r' =>
                  same_identity r r'
                  /\ (run_id r = agent_run_id ->
                      run_status r' = status_failed
                      /\ error_message r' = Some error
                      /\ completed_at r' = Some (clock self (ticks w)))
                  /\ (run_id r <> agent_run_id -> r' = r))
               (agent_runs w) (agent_runs w')
    /\ threads w' = threads w /\ messages w' = messages w
    /\ events w' = events w.
Proof.
  rewrite mark_failed_run. eexists. split; [reflexivity|].
  cbn [agent_runs threads messages events set_agent_runs set_ticks].
  split; [|split; [|split; [|repeat split]]].
  - intros Hn. induction (agent_runs w) as [|r l IH]; [reflexivity|].
    cbn [map] in *. destruct (Nat.eqb_spec (run_id r) agent_run_id) as [E|E].
    + exfalso. apply Hn. now left.
    + f_equal. apply IH. intros H. apply Hn. now right.
  - rewrite map_map. apply map_ext. intros r.
    now destruct (Nat.eqb (run_id r) agent_run_id).
  - induction (agent_runs w) as [|r l IH]; [constructor|].
    cbn [map]. constructor; [|exact IH].
    destruct (Nat.eqb_spec (run_id r) agent_run_id) as [E|E].
    + repeat split; try reflexivity; congruence.
    + repeat split; try reflexivity; congruence.
Qed.

Lemma mark_failed_frame_witness :
  exists w',
    _mark_agent_run_as_failed Scenario.bare 9 (py "late") Scenario.w_running
    = (Ok tt, w')
    /\ agent_runs w' = agent_runs Scenario.w_running.
Proof.
  destruct (mark_failed_frame Scenario.bare 9 (py "late") Scenario.w_running)
    as (w' & E & Habs & _).
  exists w'. split; [exact E|]. apply Habs.
  vm_compute. intros [H|[]]. discriminate H.
Defined.

(** ** The sweep, once more *)

Lemma sweep_loop_next_id (cls : Env) (timeout_minutes : Z)
  (sel : list AgentRun) :
  forall (c : Z) (w : World),
    next_id (snd (sweep_loop cls timeout_minutes sel c w)) = next_id w.
Proof.
  induction sel as [|run rest IH]; intros c w; [reflexivity|].
  change (sweep_loop cls timeout_minutes (run :: rest) c w)
    with (sweep_loop cls timeout_minutes rest (c + 1)%Z
            (set_agent_runs
               (map (fun r => if Nat.eqb (run_id r) (run_id run)
                              then mark_failed (sweep_message timeout_minutes)
                                     (clock cls (ticks w)) r
                              else r) (agent_runs w))
               (set_ticks (S (ticks w)) w))).
  now rewrite IH.
Qed.

Lemma sweep_out_of_range (cls : Env) (account : str) (timeout_minutes : Z)
  (w : World) :
  cutoff_ok (clock cls (ticks w)) timeout_minutes = false ->
  cleanup_stuck_agent_runs_by_timeout cls account timeout_minutes w
  = (Ok 0%Z, set_ticks (S (ticks w)) w).
Proof.
  intros Hok.
  unfold cleanup_stuck_agent_runs_by_timeout, try_except, bind, now, get,
    minus_minutes.
  cbv beta iota. rewrite Hok. reflexivity.
Qed.

Lemma sweep_as_map (cls : Env) (account : str) (timeout_minutes : Z)
  (w : World) :
  cutoff_ok (clock cls (ticks w)) timeout_minutes = true ->
  let cutoff := (clock cls (ticks w) - minutes timeout_minutes)%Z in
  let sel := filter (stuck account cutoff) (agent_runs w) in
  exists g w',
    cleanup_stuck_agent_runs_by_timeout cls account timeout_minutes w
    = (Ok (Z.of_nat (List.length sel)), w')
    /\ agent_runs w' = map g (agent_runs w)
    /\ threads w' = threads w /\ messages w' = messages w
    /\ (forall r,
          if existsb (Nat.eqb (run_id r)) (map run_id sel)
          then exists t, g r = mark_failed (sweep_message timeout_minutes) t r
          else g r = r)
    /\ next_id w' = next_id w.
Proof.
  intros Hok cutoff sel.
  set (w0 := set_ticks (S (ticks w)) w).
  pose proof (sweep_loop_next_id cls timeout_minutes sel 0%Z w0) as Hn.
  destruct (sweep_loop_spec cls timeout_minutes sel 0%Z w0)
    as (g & w' & E & Hruns & Ht & Hm & _ & Hg).
  assert (Hrun : cleanup_stuck_agent_runs_by_timeout cls account
                   timeout_minutes w
                 = match sel with
                   | [] => (Ok 0%Z, w0)
                   | _ => sweep_loop cls timeout_minutes sel 0%Z w0
                   end).
  { unfold cleanup_stuck_agent_runs_by_timeout, try_except, bind, now, get,
      minus_minutes.
    cbv beta iota. rewrite Hok. unfold ret. cbv beta iota. fold cutoff.
    change (agent_runs (set_ticks _ w)) with (agent_runs w).
    fold sel. fold w0.
    destruct sel; [reflexivity|]. now rewrite E. }
  destruct sel as [|s0 sel'] eqn:Esel.
  - exists (fun r => r), w0. rewrite Hrun.
    split; [reflexivity|]. split; [cbn; now rewrite map_id|].
    repeat split.
  - exists g, w'. rewrite Hrun, E. rewrite E in Hn.
    split; [reflexivity|]. now repeat split.
Qed.

Lemma filter_map_none {A} (p : A -> bool) (g : A -> A) (l : list A) :
  (forall r, In r l -> p (g r) = false) -> filter p (map g l) = [].
Proof.
  induction l as [|x l IH]; intros H; [reflexivity|].
  cbn [map filter]. rewrite (H x (or_introl eq_refl)).
  apply IH. intros r Hr. apply H. now right.
Qed.

(** X14: the sweep never raises, adds or removes no run and keeps the
    order of the table; every run keeps its id, thread, agent, account,
    start time and metadata; threads and messages are not touched; the
    count it answers is at most the number of runs.  When the cutoff is a
    representable datetime, no run of the account is left running with a
    start time before it.  When it is not, the date arithmetic overflows:
    the sweep answers 0 and every run is as it was. *)
Theorem sweep_leaves_no_stuck_run (cls : Env) (account : str)
  (timeout_minutes : Z) (w : World) :
  let cutoff := (clock cls (ticks w) - minutes timeout_minutes)%Z in
  exists n w',
    cleanup_stuck_agent_runs_by_timeout cls account timeout_minutes w
    = (Ok n, w')
    /\ (0 <= n <= Z.of_nat (List.length (agent_runs w)))%Z
    /\ (cutoff_ok (clock cls (ticks w)) timeout_minutes = true ->
        filter (stuck account cutoff) (agent_runs w') = [])
    /\ (cutoff_ok (clock cls (ticks w)) timeout_minutes = false ->
        n = 0%Z /\ agent_runs w' = agent_runs w)
    /\ map run_id (agent_runs w') = map run_id (agent_runs w)
    /\ Forall2 same_identity (agent_runs w) (agent_runs w')
    /\ threads w' = threads w /\ messages w' = messages w.
Proof.
  intros cutoff.
  destruct (cutoff_ok (clock cls (ticks w)) timeout_minutes) eqn:Hok.
  2:{ exists 0%Z, (set_ticks (S (ticks w)) w).
      split; [now apply sweep_out_of_range|].
      split; [lia|]. split; [discriminate|].
      split; [now split|]. split; [reflexivity|].
      split; [|now split].
      cbn [agent_runs set_ticks].
      induction (agent_runs w) as [|r l IH]; constructor; auto.
      now repeat split. }
  destruct (sweep_as_map cls account timeout_minutes w Hok)
    as (g & w' & E & Hruns & Ht & Hm & Hg & _).
  fold cutoff in E, Hg.
  set (sel := filter (stuck account cutoff) (agent_runs w)) in *.
  assert (Hid : forall r, same_identity r (g r)).
  { intros r. specialize (Hg r).
    destruct (existsb _ _); [destruct Hg as [t ->] | rewrite Hg];
      now repeat split. }
  exists (Z.of_nat (List.length sel)), w'.
  split; [exact E|]. split.
  { split; [lia|]. apply inj_le. unfold sel. apply filter_length_le. }
  split.
  { intros _. rewrite Hruns. apply filter_map_none. intros r Hr.
    specialize (Hg r).
    destruct (existsb (Nat.eqb (run_id r)) (map run_id sel)) eqn:Hex.
    - destruct Hg as [t ->]. unfold stuck. cbn [mark_failed run_status].
      change (PyStr.eqb status_failed status_running) with false.
      now rewrite andb_false_r.
    - rewrite Hg. destruct (stuck account cutoff r) eqn:Hs; [|reflexivity].
      exfalso.
      assert (Hin : existsb (Nat.eqb (run_id r)) (map run_id sel) = true).
      { apply existsb_exists. exists (run_id r).
        split; [|apply Nat.eqb_refl].
        apply in_map. unfold sel. apply filter_In. now split. }
      congruence. }
  split; [discriminate|].
  split.
  { rewrite Hruns, map_map. apply map_ext. intros r. apply (Hid r). }
  split; [|now split].
  rewrite Hruns. clear - Hid.
  induction (agent_runs w) as [|r l IH]; constructor; auto.
Qed.

(** X24: when the clock reading minus the threshold is not a
    representable datetime, the date arithmetic raises before any run is
    read: the sweep answers 0 and writes nothing, whatever runs the account
    has. *)
Theorem sweep_with_unrepresentable_cutoff (cls : Env) (account : str)
  (timeout_minutes : Z) (w : World) :
  cutoff_ok (clock cls (ticks w)) timeout_minutes = false ->
  exists w',
    cleanup_stuck_agent_runs_by_timeout cls account timeout_minutes w
    = (Ok 0%Z, w')
    /\ agent_runs w' = agent_runs w
    /\ threads w' = threads w /\ messages w' = messages w
    /\ events w' = events w /\ next_id w' = next_id w.
Proof.
  intros Hok. exists (set_ticks (S (ticks w)) w).
  split; [now apply sweep_out_of_range|]. now repeat split.
Qed.

(** A threshold of minus five billion minutes puts the cutoff after the
    year 9999: the run started 31 minutes ago stays running. *)
Lemma sweep_with_unrepresentable_cutoff_witness :
  exists w',
    cleanup_stuck_agent_runs_by_timeout Scenario.bare (py "acct")
      (-5000000000) Scenario.w_sweep = (Ok 0%Z, w')
    /\ Scenario.run_summary 1 w' = Some (status_running, None, None).
Proof.
  destruct (sweep_with_unrepresentable_cutoff Scenario.bare (py "acct")
              (-5000000000) Scenario.w_sweep)
    as (w' & E & Hr & _); [reflexivity|].
  exists w'. split; [exact E|].
  unfold Scenario.run_summary. rewrite Hr. reflexivity.
Defined.

(** ** Lines and trimming *)

Lemma split_nl_nonempty (s : str) : split_nl s <> [].
Proof.
  destruct s as [|c t]; cbn [split_nl]; [discriminate|].
  destruct (Ascii.eqb c newline); [discriminate|].
  destruct (split_nl t); discriminate.
Qed.

Lemma join_split (s : str) : join_nl (split_nl s) = s.
Proof.
  induction s as [|c t IH]; [reflexivity|].
  cbn [split_nl]. destruct (Ascii.eqb_spec c newline) as [->|Hc].
  - pose proof (split_nl_nonempty t) as Hne.
    destruct (split_nl t) as [|h r]; [contradiction|].
    cbn [join_nl app]. cbn [join_nl] in IH. now rewrite IH.
  - pose proof (split_nl_nonempty t) as Hne.
    destruct (split_nl t) as [|h r]; [contradiction|].
    destruct r as [|h' r'].
    + cbn [join_nl] in *. now rewrite IH.
    + cbn [join_nl app] in *. now rewrite IH.
Qed.

Lemma split_nl_no_newline (s : str) :
  Forall (fun line => ~ In newline line) (split_nl s).
Proof.
  induction s as [|c t IH]; [repeat constructor; auto|].
  cbn [split_nl]. destruct (Ascii.eqb_spec c newline) as [->|Hc].
  - constructor; auto.
  - destruct (split_nl t) as [|h r]; [repeat constructor|].
    + intros [H|[]]. congruence.
    + inversion IH as [|? ? Hh Hr]; subst. constructor; [|exact Hr].
      intros [H|H]; [congruence | contradiction].
Qed.

Lemma lstrip_head (s : str) :
  lstrip s = [] \/ exists c t, lstrip s = c :: t /\ is_space c = false.
Proof.
  induction s as [|c t IH]; [now left|].
  cbn [lstrip]. destruct (is_space c) eqn:E; [exact IH|].
  right. now exists c, t.
Qed.

Lemma lstrip_fixed (c : ascii) (t : str) :
  is_space c = false -> lstrip (c :: t) = c :: t.
Proof. intros H. cbn [lstrip]. now rewrite H. Qed.

Lemma lstrip_idem (s : str) : lstrip (lstrip s) = lstrip s.
Proof.
  destruct (lstrip_head s) as [->|(c & t & -> & H)]; [reflexivity|].
  now apply lstrip_fixed.
Qed.

Lemma lstrip_snoc (a : str) (c : ascii) :
  is_space c = false -> lstrip (a ++ [c]) = lstrip a ++ [c].
Proof.
  intros H. induction a as [|x a IH]; cbn [app lstrip].
  - now rewrite H.
  - destruct (is_space x); [exact IH | reflexivity].
Qed.

Lemma rstrip_cons (c : ascii) (t : str) :
  is_space c = false -> rstrip (c :: t) = c :: rstrip t.
Proof.
  intros H. unfold rstrip. cbn [rev].
  rewrite (lstrip_snoc _ _ H), rev_app_distr. reflexivity.
Qed.

Lemma rstrip_idem (s : str) : rstrip (rstrip s) = rstrip s.
Proof.
  unfold rstrip. now rewrite rev_involutive, lstrip_idem.
Qed.

(** Trimming twice is trimming once. *)
Lemma strip_idem (s : str) : strip (strip s) = strip s.
Proof.
  unfold strip.
  destruct (lstrip_head s) as [->|(c & t & -> & H)]; [reflexivity|].
  rewrite (rstrip_cons _ _ H), (lstrip_fixed _ _ H).
  rewrite <- (rstrip_cons _ _ H). apply rstrip_idem.
Qed.

(** Splitting a text at line breaks and joining the lines again gives
    the text back; there is always at least one line and no line holds a
    line break. *)
Lemma split_join_round_trip (s : str) :
  join_nl (split_nl s) = s
  /\ split_nl s <> []
  /\ Forall (fun line => ~ In newline line) (split_nl s).
Proof.
  split; [apply join_split|].
  split; [apply split_nl_nonempty | apply split_nl_no_newline].
Qed.

(** X15: the extractor's answer has no leading or trailing whitespace,
    with one exception, where it answers the transcript itself, untrimmed:
    the transcript is not blank, has at most 100 characters, and none of
    the lines of the trimmed transcript is substantial. *)
Theorem extracted_text_is_trimmed (transcript : str) :
  strip (_extract_last_message transcript) = _extract_last_message transcript
  \/ (_extract_last_message transcript = transcript
      /\ (len transcript <= 100)%Z
      /\ strip transcript <> []
      /\ Forall (fun line => substantial line = false)
            (split_nl (strip transcript))).
Proof.
  unfold _extract_last_message.
  destruct (PyStr.eqb (strip transcript) []) eqn:Hblank;
    [left; reflexivity|].
  destruct (find substantial (rev (split_nl (strip transcript))))
    as [line|] eqn:Hfind.
  - left. destruct (index _ line); apply strip_idem.
  - destruct (100 <? len transcript)%Z eqn:Hlen;
      [left; apply strip_idem|].
    right. split; [reflexivity|].
    split; [now apply Z.ltb_ge|].
    split; [now apply eqb_neq|].
    apply Forall_forall. intros line Hin.
    apply (find_none _ _ Hfind). now apply in_rev in Hin.
Qed.

(** A heading with a leading blank goes through that exception and comes
    back with the blank; a plain word comes back as it is, trimmed. *)
Lemma extracted_text_is_trimmed_witness :
  _extract_last_message (py " # heading") = py " # heading"
  /\ strip (py " # heading") <> py " # heading"
  /\ _extract_last_message (py "hello") = py "hello"
  /\ strip (py "hello") = py "hello".
Proof.
  destruct (extracted_text_is_trimmed (py " # heading")) as [H|[H _]].
  - vm_compute in H. discriminate H.
  - split; [exact H|]. split; [vm_compute; discriminate|].
    split; reflexivity.
Defined.

(** X16: when the last substantial line of a transcript has at most three
    lines before it, and its text does not occur among them, the whole
    transcript comes back, trimmed. *)
Theorem short_transcript_returned_whole (transcript : str)
  (pre post : list str) (line : str) :
  split_nl (strip transcript) = pre ++ line :: post ->
  List.length pre <= 3 ->
  substantial line = true ->
  forallb structural post = true ->
  ~ In line pre ->
  _extract_last_message transcript = strip transcript.
Proof.
  intros E Hlen Hl Hpost Hdup.
  assert (Hne : PyStr.eqb (strip transcript) [] = false).
  { apply eqb_neq. intros H. rewrite H in E. cbn in E.
    destruct pre as [|x pre]; cbn in E.
    - injection E as <- _. discriminate Hl.
    - injection E as _ E. destruct pre; discriminate E. }
  unfold _extract_last_message. rewrite Hne, E.
  rewrite (find_last_substantial pre post line Hl Hpost).
  rewrite (index_first pre post line Hdup).
  replace (Z.to_nat (Z.max 0 (Z.of_nat (List.length pre) - 3))) with 0 by lia.
  cbn [skipn]. rewrite <- E, join_split. apply strip_idem.
Qed.

Lemma short_transcript_returned_whole_witness :
  _extract_last_message (py "
Thinking...
Done: pong
```
") = py "Thinking...
Done: pong
```".
Proof.
  change (_extract_last_message (py "
Thinking...
Done: pong
```
") = strip (py "
Thinking...
Done: pong
```
")).
  apply (short_transcript_returned_whole _ [py "Thinking..."]
           [py "```"] (py "Done: pong")).
  - reflexivity.
  - cbn. lia.
  - reflexivity.
  - reflexivity.
  - intros [H|[]]. discriminate H.
Defined.

(** ** Workflow mode *)

Lemma with_thread_total (self : Env) (agent_id message model_name : str)
  (timeout : Z) (workflow : option Workflow) (w : World) :
  exists text w',
    _execute_agent_with_thread self agent_id message model_name timeout
      workflow w = (Ok text, w').
Proof. unfold _execute_agent_with_thread. apply try_catch_all_total. Qed.

(** The part of [_execute_agent_workflow] that runs once the workflow is
    known to be active. *)
Lemma active_workflow_outcome (self : Env) (agent_id workflow_id message
  model_name : str) (timeout : Z) (w : World) (wf : Workflow)
  (others : list Workflow) :
  filter (fun wf => PyStr.eqb (wf_id wf) workflow_id
                    && PyStr.eqb (wf_agent_id wf) agent_id)
         (agent_workflows w) = wf :: others ->
  wf_status wf = py "active" ->
  _execute_agent_workflow self agent_id workflow_id message model_name
    timeout w
  = match execute_workflow self with
    | None =>
        _execute_agent_with_thread self agent_id message model_name timeout
          (Some wf) w
    | Some execute =>
        match execute workflow_id agent_id message (account_id self) w with
        | (Ok er, w2) =>
            (Ok (if er_success er
                 then or_default (er_output er)
                        (py "Workflow '" ++ wf_name wf
                         ++ py "' executed successfully")
                 else py "Workflow execution failed: "
                      ++ or_default (er_error er) (py "Unknown error")), w2)
        | (Raise (ImportError _), w2) =>
            _execute_agent_with_thread self agent_id message model_name
              timeout (Some wf) w2
        | (Raise e, w2) =>
            (Ok (py "Error executing workflow: " ++ exn_str e), w2)
        end
    end.
Proof.
  intros Hf Hs.
  unfold _execute_agent_workflow.
  unfold try_except at 1. unfold bind at 1, get at 1. cbv beta iota.
  rewrite Hf, Hs. rewrite eqb_refl. cbn [negb]. cbv beta iota.
  unfold try_except, bind, raise, ret, except_Exception.
  destruct (execute_workflow self) as [execute|].
  - destruct (execute workflow_id agent_id message (account_id self) w)
      as [[er|e] w2].
    + destruct (er_success er); reflexivity.
    + destruct e; try reflexivity.
      destruct (with_thread_total self agent_id message model_name timeout
                  (Some wf) w2) as (text & w3 & E).
      now rewrite E.
  - destruct (with_thread_total self agent_id message model_name timeout
                (Some wf) w) as (text & w3 & E).
    now rewrite E.
Qed.



(** X18: a workflow id that the agent has no workflow for is answered
    with a not-found error before anything is written; through
    [call_agent] an authorised caller gets a failed response and the
    threads, messages, runs and the task log are as before. *)
Theorem unknown_workflow_fails_fast (self : Env) (agent_id message
  workflow_id : str) (model_name : option str) (timeout max_tokens : Z)
  (output_mode : str) (w : World) :
  workflow_id <> [] ->
  filter (fun wf => PyStr.eqb (wf_id wf) workflow_id
                    && PyStr.eqb (wf_agent_id wf) agent_id)
         (agent_workflows w) = [] ->
  (forall model t,
     _execute_agent_workflow self agent_id workflow_id message model t w
     = (Ok (py "Error: Workflow " ++ workflow_id
            ++ py " not found for agent " ++ agent_id), w))
  /\ (accessible self agent_id w ->
      exists d w',
        call_agent self agent_id message mode_workflow (Some workflow_id)
          model_name timeout max_tokens output_mode w
        = (Ok (fail_response (Data d)), w')
        /\ resp_status d = status_failed
        /\ resp_result d = py "Error: Workflow " ++ workflow_id
                           ++ py " not found for agent " ++ agent_id
        /\ threads w' = threads w /\ messages w' = messages w
        /\ agent_runs w' = agent_runs w /\ events w' = events w).
Proof.
  intros Hid Hf.
  assert (Hfun : forall model t,
     _execute_agent_workflow self agent_id workflow_id message model t w
     = (Ok (py "Error: Workflow " ++ workflow_id
            ++ py " not found for agent " ++ agent_id), w)).
  { intros. unfold _execute_agent_workflow, try_except, bind, get.
    cbv beta iota. rewrite Hf. reflexivity. }
  split; [exact Hfun|]. intros Ha.
  assert (Hwf : well_formed mode_workflow (Some workflow_id)).
  { split; [reflexivity|]. intros _. now destruct workflow_id. }
  destruct (call_agent_authorised self agent_id message mode_workflow
              (Some workflow_id) model_name timeout max_tokens output_mode
              w Hwf Ha) as (raw & w1 & Ed & Ec).
  unfold dispatched in Ed. rewrite eqb_refl in Ed. cbn [or_default] in Ed.
  rewrite Hfun in Ed.
  set (msg := py "Error: Workflow " ++ workflow_id
              ++ py " not found for agent " ++ agent_id) in *.
  assert (Eraw : raw = msg) by congruence.
  assert (Ew : w1 = w) by congruence.
  subst raw w1.
  assert (Hc : contains (py "Error:") msg = true) by reflexivity.
  destruct (process_result_error self agent_id mode_workflow
              (Some workflow_id) (_get_fallback_model model_name)
              (effective_output_mode output_mode)
              (Z.max 100 (Z.min 4000 max_tokens)) msg w Hc)
    as (d & E & Hst & Hr & _).
  exists d, (set_ticks (S (ticks w)) w). rewrite Ec.
  repeat split; assumption.
Qed.

Lemma unknown_workflow_fails_fast_witness :
  _execute_agent_workflow Scenario.bare (py "A1") (py "W9") (py "ping")
    fallback_model 300 Scenario.w0
  = (Ok (py "Error: Workflow W9 not found for agent A1"), Scenario.w0).
Proof.
  destruct (unknown_workflow_fails_fast Scenario.bare (py "A1") (py "ping")
              (py "W9") None 300 1000 out_last_message Scenario.w0)
    as [H _]; [discriminate | reflexivity |].
  apply H.
Defined.

(** X19: without the workflow engine, an active workflow is executed
    like a prompt, on a thread of its own, with the workflow's name and
    description put in front of the user's message; an empty or missing
    description is left out. *)
Theorem workflow_falls_back_to_thread (self : Env) (agent_id workflow_id
  message model_name : str) (timeout : Z) (w : World) (wf : Workflow)
  (others : list Workflow) :
  filter (fun wf => PyStr.eqb (wf_id wf) workflow_id
                    && PyStr.eqb (wf_agent_id wf) agent_id)
         (agent_workflows w) = wf :: others ->
  wf_status wf = py "active" ->
  execute_workflow self = None ->
  _execute_agent_workflow self agent_id workflow_id message model_name
    timeout w
  = _execute_agent_with_thread self agent_id message model_name timeout
      (Some wf) w
  /\ final_message_of message (Some wf)
     = py "Executing workflow '" ++ wf_name wf ++ py "'"
       ++ match wf_description wf with
          | Some (c :: d) => py ": " ++ c :: d
          | _ => []
          end
       ++ [newline; newline] ++ py "User message: " ++ message.
Proof.
  intros Hf Hs He. split.
  - rewrite (active_workflow_outcome self agent_id workflow_id message
               model_name timeout w wf others Hf Hs), He. reflexivity.
  - unfold final_message_of.
    destruct (wf_description wf) as [[|c d]|]; cbn [truthy or_default];
      rewrite <- ?app_assoc; reflexivity.
Qed.

Lemma workflow_falls_back_to_thread_witness :
  exists text w',
    _execute_agent_workflow Scenario.bare (py "A1") (py "W2") (py "ping")
      fallback_model 300 Cases.w_active = (Ok text, w')
    /\ map (fun m => message_text (msg_content m)) (messages w')
       = [py "Executing workflow 'digest'

User message: ping"].
Proof.
  destruct (workflow_falls_back_to_thread Scenario.bare (py "A1") (py "W2")
              (py "ping") fallback_model 300 Cases.w_active Cases.wf_active [])
    as [E _]; try reflexivity.
  do 2 eexists. split; [rewrite E; reflexivity | reflexivity].
Defined.

(** ** The store invariant *)

Lemma NoDup_snoc {A} (l : list A) (x : A) :
  NoDup l -> ~ In x l -> NoDup (l ++ [x]).
Proof.
  induction l as [|a l IH]; intros Hnd Hx.
  - repeat constructor. auto.
  - inversion Hnd as [|? ? Ha Hl]; subst. cbn [app]. constructor.
    + rewrite in_app_iff. intros [H|[H|[]]]; [contradiction|].
      apply Hx. now left.
    + apply IH; [exact Hl|]. intros H. apply Hx. now right.
Qed.

Lemma store_ok_built (self : Env) (agent_id message model_name : str)
  (timeout : Z) (workflow : option Workflow) (w : World) :
  store_ok w ->
  store_ok (built self agent_id message model_name timeout workflow w).
Proof.
  intros (Hr & Ht & Hrb & Htb & Href). unfold store_ok, built.
  cbn [agent_runs threads next_id].
  split; [|split; [|split; [|split]]].
  - rewrite map_app. cbn [map new_run run_id]. apply NoDup_snoc; [exact Hr|].
    intros Hin. apply in_map_iff in Hin as (r & E & Hin).
    specialize (Hrb r Hin). lia.
  - rewrite map_app. cbn [map seed_thread thread_id].
    apply NoDup_snoc; [exact Ht|].
    intros Hin. apply in_map_iff in Hin as (t & E & Hin).
    specialize (Htb t Hin). lia.
  - intros r Hin. apply in_app_iff in Hin as [Hin|[<-|[]]].
    + specialize (Hrb r Hin). lia.
    + cbn [new_run run_id]. lia.
  - intros t Hin. apply in_app_iff in Hin as [Hin|[<-|[]]].
    + specialize (Htb t Hin). lia.
    + cbn [seed_thread thread_id]. lia.
  - intros r Hin. apply in_app_iff in Hin as [Hin|[<-|[]]].
    + destruct (Href r Hin) as (t & Hin' & E). exists t.
      split; [|exact E]. apply in_app_iff. now left.
    + eexists. split; [apply in_app_iff; right; left; reflexivity|].
      reflexivity.
Qed.

(** Rewriting runs in place, keeping ids and threads, keeps the
    invariant. *)
Lemma store_ok_map (w w' : World) (g : AgentRun -> AgentRun) :
  store_ok w ->
  agent_runs w' = map g (agent_runs w) ->
  (forall r, run_id (g r) = run_id r) ->
  (forall r, run_thread_id (g r) = run_thread_id r) ->
  threads w' = threads w -> next_id w' = next_id w ->
  store_ok w'.
Proof.
  intros (Hr & Ht & Hrb & Htb & Href) Hruns Hid Hth Hthreads Hnext.
  unfold store_ok. rewrite Hruns, Hthreads, Hnext.
  assert (Hids : map run_id (map g (agent_runs w))
                 = map run_id (agent_runs w)).
  { rewrite map_map. apply map_ext. exact Hid. }
  rewrite Hids.
  split; [exact Hr|]. split; [exact Ht|]. split; [|split; [exact Htb|]].
  - intros r Hin. apply in_map_iff in Hin as (x & <- & Hx).
    rewrite Hid. now apply Hrb.
  - intros r Hin. apply in_map_iff in Hin as (x & <- & Hx).
    rewrite Hth. now apply Href.
Qed.

Lemma store_ok_finalised (self : Env) (agent_run_id : nat) (w : World) :
  store_ok w -> store_ok (finalised self agent_run_id w).
Proof.
  intros H.
  apply (store_ok_map w _
           (fun r => if Nat.eqb (run_id r) agent_run_id
                     then mark_failed (py "Execution timed out")
                            (clock self (ticks w)) r
                     else r) H); try reflexivity;
    intros r; now destruct (Nat.eqb (run_id r) agent_run_id).
Qed.

Lemma store_ok_grow (w w' : World) :
  store_ok w ->
  agent_runs w' = agent_runs w -> threads w' = threads w ->
  next_id w <= next_id w' ->
  store_ok w'.
Proof.
  intros (Hr & Ht & Hrb & Htb & Href) Hruns Hthreads Hnext.
  unfold store_ok. rewrite Hruns, Hthreads.
  split; [exact Hr|]. split; [exact Ht|].
  split; [|split; [|exact Href]].
  - intros r Hin. specialize (Hrb r Hin). lia.
  - intros t Hin. specialize (Htb t Hin). lia.
Qed.

Lemma answering_runtime_keeps_store (answer : str) :
  runtime_keeps_store (Scenario.answering_runtime answer).
Proof.
  intros args timeout w H.
  unfold Scenario.answering_runtime. cbn [outcome_world].
  match goal with
  | |- store_ok (set_next_id _ ?w1) =>
      apply (store_ok_grow w1); [|reflexivity|reflexivity|cbn; lia]
  end.
  match goal with
  | |- store_ok (set_agent_runs (map ?g _) _) =>
      apply (store_ok_map w _ g H); try reflexivity;
        intros r; cbv beta;
        now destruct (Nat.eqb (run_id r) (ba_agent_run_id args))
  end.
Qed.

(** X20: the tool keeps the store invariant.  If run ids and thread ids
    are unique keys below the id supply and every run points to a thread of
    the store, the same holds after a thread-backed execution, provided the
    runtime keeps the invariant: the new thread and run get fresh keys and
    the new run points to the new thread. *)
Theorem execution_keeps_store_invariant (self : Env)
  (agent_id message model_name : str) (timeout : Z)
  (workflow : option Workflow) (w : World) :
  store_ok w ->
  (forall rt, run_agent_background self = Some rt -> runtime_keeps_store rt) ->
  store_ok (snd (_execute_agent_with_thread self agent_id message model_name
                   timeout workflow w)).
Proof.
  intros Hok Hrt. rewrite with_thread_outcome.
  pose proof (store_ok_built self agent_id message model_name timeout
                workflow w Hok) as Hb.
  destruct (run_agent_background self) as [rt|]; [|exact Hb].
  specialize (Hrt rt eq_refl).
  destruct (filter _ (agents w)) as [|a rest]; [exact Hb|].
  assert (Hs : store_ok (started self agent_id message model_name timeout
                           workflow w)).
  { apply (store_ok_map _ _ (fun r => r) Hb); try reflexivity.
    cbn. now rewrite map_id. }
  specialize (Hrt (request_args self model_name a w) timeout _ Hs).
  destruct (rt _ _ _) as [w2|e w2|w2 [|]]; cbn [outcome_world] in Hrt.
  - destruct (get_result_total self (S (S (next_id w))) (next_id w) 10 w2)
      as (s & E).
    now rewrite E.
  - destruct e; cbn [snd]; try exact Hrt. now apply store_ok_finalised.
  - now apply store_ok_finalised.
  - destruct (get_result_total self (S (S (next_id w))) (next_id w) 10 w2)
      as (s & E).
    now rewrite E.
Qed.

(** A second delegation, on the store the first one left (a thread, its
    seed message and a run), with a runtime that writes a reply and
    completes the run. *)
Lemma execution_keeps_store_invariant_witness :
  store_ok Scenario.w_running
  /\ runtime_keeps_store (Scenario.answering_runtime (py "pong"))
  /\ store_ok
       (snd (_execute_agent_with_thread
               (Scenario.with_runtime (Scenario.answering_runtime (py "pong")))
               (py "A1") (py "ping") fallback_model 300 None
               Scenario.w_running))
  /\ map run_id
       (agent_runs
          (snd (_execute_agent_with_thread
                  (Scenario.with_runtime
                     (Scenario.answering_runtime (py "pong")))
                  (py "A1") (py "ping") fallback_model 300 None
                  Scenario.w_running)))
     = [2; 5].
Proof.
  assert (H0 : store_ok Scenario.w_running).
  { unfold store_ok. vm_compute.
    split; [repeat constructor; intros []|].
    split; [repeat constructor; intros []|].
    split; [intros r [<-|[]]; repeat constructor|].
    split; [intros t [<-|[]]; repeat constructor|].
    intros r [<-|[]]. eexists. split; [left; reflexivity | reflexivity]. }
  split; [exact H0|].
  split; [apply answering_runtime_keeps_store|].
  split; [|reflexivity].
  apply (execution_keeps_store_invariant
           (Scenario.with_runtime (Scenario.answering_runtime (py "pong")))
           (py "A1") (py "ping") fallback_model 300 None Scenario.w_running).
  - exact H0.
  - intros rt H. injection H as <-. apply answering_runtime_keeps_store.
Defined.

(** X21: the finalising operations keep the store invariant: marking a
    run as failed, the single-run cleanup and the sweep rewrite runs in
    place and never touch ids, thread references or the id supply. *)
Theorem finalisers_keep_store_invariant (self : Env) (w : World) :
  store_ok w ->
  (forall id error,
     store_ok (snd (_mark_agent_run_as_failed self id error w)))
  /\ (forall id, store_ok (snd (cleanup_stuck_agent_run self id w)))
  /\ (forall account timeout_minutes,
        store_ok (snd (cleanup_stuck_agent_runs_by_timeout self account
                         timeout_minutes w))).
Proof.
  intros Hok. split; [|split].
  - intros id error. rewrite mark_failed_run. cbn [snd].
    apply (store_ok_map w _
             (fun r => if Nat.eqb (run_id r) id
                       then mark_failed error (clock self (ticks w)) r
                       else r) Hok); try reflexivity;
      intros r; now destruct (Nat.eqb (run_id r) id).
  - intros id. rewrite cleanup_cases.
    destruct (filter _ (agent_runs w)) as [|r rs]; [exact Hok|].
    destruct (terminal r); [exact Hok|]. cbn [snd].
    apply (store_ok_map w _
             (fun r => if Nat.eqb (run_id r) id
                       then mark_failed
                              (py "Agent run was stuck and cleaned up")
                              (clock self (ticks w)) r
                       else r) Hok); try reflexivity;
      intros r'; now destruct (Nat.eqb (run_id r') id).
  - intros account timeout_minutes.
    destruct (cutoff_ok (clock self (ticks w)) timeout_minutes) eqn:Hcut.
    2:{ rewrite (sweep_out_of_range self account timeout_minutes w Hcut).
        cbn [snd].
        apply (store_ok_map w _ (fun r => r) Hok); try reflexivity.
        cbn. now rewrite map_id. }
    destruct (sweep_as_map self account timeout_minutes w Hcut)
      as (g & w' & E & Hruns & Ht & Hm & Hg & Hnext).
    rewrite E. cbn [snd].
    apply (store_ok_map w w' g Hok Hruns); try assumption.
    + intros r. specialize (Hg r).
      destruct (existsb _ _); [destruct Hg as [t ->] | rewrite Hg];
        reflexivity.
    + intros r. specialize (Hg r).
      destruct (existsb _ _); [destruct Hg as [t ->] | rewrite Hg];
        reflexivity.
Qed.

Lemma finalisers_keep_store_invariant_witness :
  store_ok (snd (cleanup_stuck_agent_run Scenario.bare 2 Scenario.w_running)).
Proof.
  assert (H : store_ok Scenario.w_running).
  { split; [|split; [|split; [|split]]].
    - repeat constructor. intros [].
    - repeat constructor. intros [].
    - intros r [<-|[]]. cbn. lia.
    - intros t [<-|[]]. cbn. lia.
    - intros r [<-|[]]. eexists. split; [left; reflexivity | reflexivity]. }
  apply (proj1 (proj2 (finalisers_keep_store_invariant Scenario.bare
                         Scenario.w_running H))).
Defined.

(** ** Agent discovery *)

Section DiscoveryFacts.

Import Discovery.

Variable self : Self.
Variable agent_workflows : list Workflow.

Lemma discover_loop_map (rows : list AgentRow) :
  discover_loop self agent_workflows rows
  = map (info_of agent_workflows)
        (filter (fun r => negb (is_current self (ar_agent_id r))) rows).
Proof.
  induction rows as [|r rows IH]; [reflexivity|].
  cbn [discover_loop filter].
  destruct (is_current self (ar_agent_id r)); cbn [negb map];
    now rewrite IH.
Qed.

Lemma insert_desc_perm (r : AgentRow) (l : list AgentRow) :
  Permutation (insert_desc r l) (r :: l).
Proof.
  induction l as [|x l IH]; [reflexivity|].
  cbn [insert_desc]. destruct (ar_created_at x <? ar_created_at r)%Z.
  - reflexivity.
  - rewrite IH. apply perm_swap.
Qed.

Lemma order_desc_perm (l : list AgentRow) : Permutation (order_desc l) l.
Proof.
  induction l as [|r l IH]; [reflexivity|].
  cbn [order_desc fold_right]. fold (order_desc l).
  rewrite insert_desc_perm. now constructor.
Qed.

Lemma insert_desc_sorted (r : AgentRow) (l : list AgentRow) :
  StronglySorted newer_first l -> StronglySorted newer_first (insert_desc r l).
Proof.
  induction l as [|x l IH]; intros Hs.
  - repeat constructor.
  - cbn [insert_desc]. inversion Hs as [|? ? Hl Hx]; subst.
    destruct (Z.ltb_spec (ar_created_at x) (ar_created_at r)) as [Hlt|Hge].
    + constructor; [exact Hs|]. constructor; [unfold newer_first; lia|].
      rewrite Forall_forall in *. intros y Hy. specialize (Hx y Hy).
      unfold newer_first in *. lia.
    + constructor; [now apply IH|].
      rewrite Forall_forall in *. intros y Hy.
      apply (Permutation_in _ (insert_desc_perm r l)) in Hy.
      destruct Hy as [<-|Hy]; [exact Hge | now apply Hx].
Qed.

Lemma order_desc_sorted (l : list AgentRow) :
  StronglySorted newer_first (order_desc l).
Proof.
  induction l as [|r l IH]; [constructor|].
  cbn [order_desc fold_right]. now apply insert_desc_sorted.
Qed.

Lemma filter_sorted (p : AgentRow -> bool) (l : list AgentRow) :
  StronglySorted newer_first l -> StronglySorted newer_first (filter p l).
Proof.
  induction l as [|x l IH]; intros Hs; [constructor|].
  inversion Hs as [|? ? Hl Hx]; subst. cbn [filter].
  destruct (p x); [|now apply IH].
  constructor; [now apply IH|].
  rewrite Forall_forall in *. intros y Hy.
  apply filter_In in Hy as [Hy _]. now apply Hx.
Qed.

Lemma filter_perm (p : AgentRow -> bool) (l l' : list AgentRow) :
  Permutation l l' -> Permutation (filter p l) (filter p l').
Proof.
  induction 1 as [|x l l' H IH|x y l|l l' l'' H1 IH1 H2 IH2];
    cbn [filter].
  - constructor.
  - destruct (p x); [now constructor | exact IH].
  - destruct (p x), (p y); try reflexivity. apply perm_swap.
  - now rewrite IH1.
Qed.

Lemma discover_agents_rows (agents_table : list AgentRow) :
  discover_agents self agents_table agent_workflows
  = map (info_of agent_workflows)
        (filter (fun r => negb (is_current self (ar_agent_id r)))
           (order_desc
              (filter (fun r => PyStr.eqb (ar_account_id r)
                                  (d_account_id self)) agents_table))).
Proof.
  unfold discover_agents.
  destruct (order_desc _) as [|r rows] eqn:E; [reflexivity|].
  apply discover_loop_map.
Qed.

(** X22: discovery lists an agent exactly when the agents table has a row
    for it that belongs to the caller's account and is not the current
    agent, once for every such row; each entry carries the row's name and
    description and all workflows of that agent, active or not, in table
    order. *)
Theorem discovery_lists_account_agents (agents_table : list AgentRow) :
  let found := discover_agents self agents_table agent_workflows in
  (forall i, In i found <->
     exists r, In r agents_table /\ listed self r = true
               /\ i = info_of agent_workflows r)
  /\ List.length found = List.length (filter (listed self) agents_table)
  /\ (forall i, In i found ->
        ai_workflows i
        = map (fun wf => {| wi_workflow_id := wf_id wf; wi_name := wf_name wf;
                            wi_description := wf_description wf |})
              (filter (fun wf => PyStr.eqb (wf_agent_id wf) (ai_agent_id i))
                      agent_workflows)).
Proof.
  intros found. subst found. rewrite discover_agents_rows.
  set (mine := fun r => PyStr.eqb (ar_account_id r) (d_account_id self)).
  set (other := fun r => negb (is_current self (ar_agent_id r))).
  assert (Hperm : Permutation (filter other (order_desc (filter mine
                                                           agents_table)))
                              (filter (listed self) agents_table)).
  { rewrite (filter_perm other _ _ (order_desc_perm _)).
    clear. induction agents_table as [|r l IH]; [reflexivity|].
    cbn [filter]. unfold listed at 1. fold (mine r). fold (other r).
    destruct (mine r); cbn [andb filter]; [|exact IH].
    destruct (other r); [now constructor | exact IH]. }
  split; [|split].
  - intros i. rewrite in_map_iff. split.
    + intros (r & <- & Hr). exists r.
      apply (Permutation_in _ Hperm) in Hr.
      apply filter_In in Hr as [Hin Hl]. now repeat split.
    + intros (r & Hin & Hl & ->). exists r. split; [reflexivity|].
      apply (Permutation_in _ (Permutation_sym Hperm)).
      apply filter_In. now split.
  - rewrite length_map. now apply Permutation_length.
  - intros i Hi. apply in_map_iff in Hi as (r & <- & _). reflexivity.
Qed.

(** X23: the entries come newest first: they are the listed rows in
    an order in which no row is created later than one before it. *)
Theorem discovery_is_newest_first (agents_table : list AgentRow) :
  exists rows,
    discover_agents self agents_table agent_workflows
    = map (info_of agent_workflows) rows
    /\ Permutation rows (filter (listed self) agents_table)
    /\ StronglySorted newer_first rows.
Proof.
  rewrite discover_agents_rows.
  eexists. split; [reflexivity|]. split.
  - rewrite (filter_perm _ _ _ (order_desc_perm _)).
    clear. induction agents_table as [|r l IH]; [reflexivity|].
    cbn [filter]. unfold listed at 1.
    destruct (PyStr.eqb (ar_account_id r) (d_account_id self));
      cbn [andb filter]; [|exact IH].
    destruct (negb (is_current self (ar_agent_id r)));
      [now constructor | exact IH].
  - apply filter_sorted, order_desc_sorted.
Qed.

End DiscoveryFacts.

Lemma discovery_lists_account_agents_witness :
  In {| Discovery.ai_agent_id := py "A1"; Discovery.ai_name := py "analyst";
        Discovery.ai_description := None; Discovery.ai_workflows := [] |}
     (Discovery.discover_agents Discovery.me Discovery.rows0 []).
Proof.
  apply (proj1 (discovery_lists_account_agents Discovery.me []
                  Discovery.rows0)).
  eexists. split; [right; left; reflexivity|]. split; reflexivity.
Defined.

Example discovery_demo :
  map Discovery.ai_agent_id
      (Discovery.discover_agents Discovery.me Discovery.rows0 [])
  = [py "A2"; py "A1"].
Proof. reflexivity. Qed.
